(** * Press-duration classifier and timer-driven LED state machine

    A shallow embedding of the button/LED sketches of the repository:

    - [Part000] : src/unnamed/part_000 (external interrupt with software
      debounce, flags consumed by [loop], Timer1 in CTC mode);
    - [RoniIsr] : src/HWs/HW3/HW3/src/RoniMain.cpp, second sketch of the
      file (lines 284-413), an earlier revision of the same design;
    - [MainCpp] : src/HWs/HW3/HW3/src/main.cpp (everything done inside the
      interrupt handlers, no serial output);
    - [RoniPoll] : src/HWs/HW3/HW3/src/RoniMain.cpp, first sketch of the file
      (lines 88-196): the Timer2 millisecond counter and its guarded read.

    The target is an ATmega328P (16 MHz, Timer1 registers): [int] is 16 bits,
    [unsigned long] is 32 bits, [uint8_t] is 8 bits, [OCR1A] is a 16-bit
    register and the other timer registers are 8 bits wide.  Integers are
    modelled as [Z] with the wrap-around written out.  Signed overflow is
    modelled as two's-complement wrap-around, which is what avr-gcc emits. *)

From Stdlib Require Import ZArith Bool List String Lia.
Import ListNotations.
Open Scope Z_scope.

(** ** Machine integers *)

Definition u8  (z : Z) : Z := z mod 2 ^ 8.
Definition u16 (z : Z) : Z := z mod 2 ^ 16.
Definition u32 (z : Z) : Z := z mod 2 ^ 32.

(** 16-bit signed [int], two's complement. *)
Definition s16 (z : Z) : Z := (z + 2 ^ 15) mod 2 ^ 16 - 2 ^ 15.

(** [a - b] on [unsigned long]. *)
Definition sub32 (a b : Z) : Z := u32 (a - b).

(** ** Timer1 registers

    Bit positions as the ATmega328P defines them. *)

Definition WGM12  : Z := 3.
Definition CS12   : Z := 2.
Definition CS11   : Z := 1.
Definition CS10   : Z := 0.
Definition OCIE1A : Z := 1.

Definition bit (n : Z) : Z := Z.shiftl 1 n.

Record timer1 : Type := mkTimer1 {
  TCCR1A : Z;
  TCCR1B : Z;
  TCNT1  : Z;
  OCR1A  : Z;
  TIMSK1 : Z
}.

Definition set_TCCR1A (v : Z) (t : timer1) : timer1 :=
  mkTimer1 v (TCCR1B t) (TCNT1 t) (OCR1A t) (TIMSK1 t).
Definition set_TCCR1B (v : Z) (t : timer1) : timer1 :=
  mkTimer1 (TCCR1A t) v (TCNT1 t) (OCR1A t) (TIMSK1 t).
Definition set_TCNT1 (v : Z) (t : timer1) : timer1 :=
  mkTimer1 (TCCR1A t) (TCCR1B t) v (OCR1A t) (TIMSK1 t).
Definition set_OCR1A (v : Z) (t : timer1) : timer1 :=
  mkTimer1 (TCCR1A t) (TCCR1B t) (TCNT1 t) v (TIMSK1 t).
Definition set_TIMSK1 (v : Z) (t : timer1) : timer1 :=
  mkTimer1 (TCCR1A t) (TCCR1B t) (TCNT1 t) (OCR1A t) v.

(** All registers read zero after reset. *)
Definition timer1_reset : timer1 := mkTimer1 0 0 0 0 0.

(** The clock-select bits CS12..CS10 of TCCR1B: the counter runs iff one of
    them is set. *)
Definition clock_bits (t : timer1) : Z :=
  Z.land (TCCR1B t) (Z.lor (bit CS12) (Z.lor (bit CS11) (bit CS10))).

(** The compare-match A interrupt is enabled iff OCIE1A is set in TIMSK1. *)
Definition compare_irq_enabled (t : timer1) : bool := Z.testbit (TIMSK1 t) OCIE1A.

(** In CTC mode the counter runs 0, 1, ..., OCR1A and restarts, so a compare
    match comes every [OCR1A + 1] prescaled ticks (the sources' formula
    "OCR1A = (16MHz / (prescaler * toggle_frequency)) - 1"). *)
Definition period_ticks (t : timer1) : Z := OCR1A t + 1.

(** ** Serial output and commands

    What the sketches print is kept apart from the state: a command maps a
    state to the next state and the items it printed. *)

Inductive SerialItem : Type :=
| Print      (s : string)
| PrintNum   (n : Z)
| Println    (s : string)
| PrintlnNum (n : Z).

Section Commands.
Context {St : Type}.

Definition Cmd : Type := St -> St * list SerialItem.

Definition skip : Cmd := fun s => (s, []).
Definition modify (f : St -> St) : Cmd := fun s => (f s, []).
Definition emit (i : SerialItem) : Cmd := fun s => (s, [i]).
Definition emit_with (f : St -> SerialItem) : Cmd := fun s => (s, [f s]).
Definition andthen (c1 c2 : Cmd) : Cmd :=
  fun s => let (s1, o1) := c1 s in
           let (s2, o2) := c2 s1 in (s2, o1 ++ o2).
Definition ifc (b : St -> bool) (c1 c2 : Cmd) : Cmd :=
  fun s => if b s then c1 s else c2 s.
Definition whenc (b : St -> bool) (c : Cmd) : Cmd := ifc b c skip.
End Commands.

Arguments Cmd : clear implicits.
Notation "c1 ;; c2" := (andthen c1 c2) (at level 61, right associativity).

(** ** Press classification *)

Inductive PressClassification : Type := Short | Medium | Long.

(** ** src/unnamed/part_000 *)

Module Part000.

Definition SHORT_PRESS_TIME : Z := 1500.
Definition LONG_PRESS_TIME  : Z := 4000.
Definition DEBOUNCE_TIME    : Z := 50.

Record state : Type := mkState {
  PressCounter   : Z;      (* volatile int *)
  pressTime      : Z;      (* volatile unsigned long *)
  lastISRTime    : Z;      (* volatile unsigned long *)
  lastDuration   : Z;      (* volatile unsigned long *)
  actionShort    : bool;
  actionStart    : bool;
  actionStop     : bool;
  Blink          : bool;
  feedbackLedOn  : bool;
  lastFlashStart : Z;      (* unsigned long *)
  ledPin         : bool;   (* level driven on pin 10, HIGH = true *)
  tmr            : timer1
}.

Definition set_PressCounter (v : Z) (s : state) : state :=
  mkState v (pressTime s) (lastISRTime s) (lastDuration s) (actionShort s)
    (actionStart s) (actionStop s) (Blink s) (feedbackLedOn s)
    (lastFlashStart s) (ledPin s) (tmr s).
Definition set_pressTime (v : Z) (s : state) : state :=
  mkState (PressCounter s) v (lastISRTime s) (lastDuration s) (actionShort s)
    (actionStart s) (actionStop s) (Blink s) (feedbackLedOn s)
    (lastFlashStart s) (ledPin s) (tmr s).
Definition set_lastISRTime (v : Z) (s : state) : state :=
  mkState (PressCounter s) (pressTime s) v (lastDuration s) (actionShort s)
    (actionStart s) (actionStop s) (Blink s) (feedbackLedOn s)
    (lastFlashStart s) (ledPin s) (tmr s).
Definition set_lastDuration (v : Z) (s : state) : state :=
  mkState (PressCounter s) (pressTime s) (lastISRTime s) v (actionShort s)
    (actionStart s) (actionStop s) (Blink s) (feedbackLedOn s)
    (lastFlashStart s) (ledPin s) (tmr s).
Definition set_actionShort (v : bool) (s : state) : state :=
  mkState (PressCounter s) (pressTime s) (lastISRTime s) (lastDuration s) v
    (actionStart s) (actionStop s) (Blink s) (feedbackLedOn s)
    (lastFlashStart s) (ledPin s) (tmr s).
Definition set_actionStart (v : bool) (s : state) : state :=
  mkState (PressCounter s) (pressTime s) (lastISRTime s) (lastDuration s)
    (actionShort s) v (actionStop s) (Blink s) (feedbackLedOn s)
    (lastFlashStart s) (ledPin s) (tmr s).
Definition set_actionStop (v : bool) (s : state) : state :=
  mkState (PressCounter s) (pressTime s) (lastISRTime s) (lastDuration s)
    (actionShort s) (actionStart s) v (Blink s) (feedbackLedOn s)
    (lastFlashStart s) (ledPin s) (tmr s).
Definition set_Blink (v : bool) (s : state) : state :=
  mkState (PressCounter s) (pressTime s) (lastISRTime s) (lastDuration s)
    (actionShort s) (actionStart s) (actionStop s) v (feedbackLedOn s)
    (lastFlashStart s) (ledPin s) (tmr s).
Definition set_feedbackLedOn (v : bool) (s : state) : state :=
  mkState (PressCounter s) (pressTime s) (lastISRTime s) (lastDuration s)
    (actionShort s) (actionStart s) (actionStop s) (Blink s) v
    (lastFlashStart s) (ledPin s) (tmr s).
Definition set_lastFlashStart (v : Z) (s : state) : state :=
  mkState (PressCounter s) (pressTime s) (lastISRTime s) (lastDuration s)
    (actionShort s) (actionStart s) (actionStop s) (Blink s)
    (feedbackLedOn s) v (ledPin s) (tmr s).
Definition set_ledPin (v : bool) (s : state) : state :=
  mkState (PressCounter s) (pressTime s) (lastISRTime s) (lastDuration s)
    (actionShort s) (actionStart s) (actionStop s) (Blink s)
    (feedbackLedOn s) (lastFlashStart s) v (tmr s).
Definition set_tmr (v : timer1) (s : state) : state :=
  mkState (PressCounter s) (pressTime s) (lastISRTime s) (lastDuration s)
    (actionShort s) (actionStart s) (actionStop s) (Blink s)
    (feedbackLedOn s) (lastFlashStart s) (ledPin s) v.
Definition upd_tmr (f : timer1 -> timer1) (s : state) : state :=
  set_tmr (f (tmr s)) s.

(** The globals' initialisers, the registers after reset, and [setup]'s
    [digitalWrite(ledPin, LOW)]. *)
Definition init : state :=
  mkState 0 0 0 0 false false false false false 0 false timer1_reset.

(** The three-way comparison chain of [buttonISR] (lines 43-61). *)
Definition classify (duration : Z) : PressClassification :=
  if duration <? SHORT_PRESS_TIME then Short
  else if duration <? LONG_PRESS_TIME then Medium
  else Long.

(** [buttonISR]: [now] is what [millis()] returns, [level] what
    [digitalRead(buttonPin)] returns ([true] = HIGH). *)
Definition buttonISR (now : Z) (level : bool) (s : state) : state :=
  if sub32 now (lastISRTime s) <? DEBOUNCE_TIME then s
  else
    let s := set_lastISRTime now s in
    if level then set_pressTime now s
    else
      let duration := sub32 now (pressTime s) in
      let s := set_lastDuration duration s in
      match classify duration with
      | Short =>
          if negb (Blink s)
          then set_actionShort true
                 (set_PressCounter (s16 (PressCounter s + 1)) s)
          else s
      | Medium => set_actionStart true s
      | Long => set_actionStop true s
      end.

(** [ISR(TIMER1_COMPA_vect)]. *)
Definition timerISR (s : state) : state :=
  if Blink s then set_ledPin (negb (ledPin s)) s else s.

(** [startTimer(counts)].  The product is computed on 16-bit [int] and
    stored in the 16-bit register: what OCR1A receives is the value modulo
    2^16 in either case. *)
Definition startTimer (counts : Z) (s : state) : state :=
  let counts := if counts <=? 0 then 1 else counts in
  let s := upd_tmr (set_TCCR1A 0) s in
  let s := upd_tmr (set_TCCR1B 0) s in
  let s := upd_tmr (set_TCNT1 0) s in
  let s := upd_tmr (set_OCR1A (u16 (7812 * counts - 1))) s in
  let s := upd_tmr (fun t => set_TCCR1B
             (Z.lor (TCCR1B t) (Z.lor (bit WGM12) (Z.lor (bit CS12) (bit CS10)))) t) s in
  upd_tmr (fun t => set_TIMSK1 (Z.lor (TIMSK1 t) (bit OCIE1A)) t) s.

(** [stopTimer()]. *)
Definition stopTimer (s : state) : state :=
  let s := upd_tmr (fun t => set_TIMSK1
             (Z.land (TIMSK1 t) (Z.lnot (bit OCIE1A))) t) s in
  let s := upd_tmr (set_TCCR1B 0) s in
  let s := upd_tmr (set_TCCR1A 0) s in
  let s := upd_tmr (set_TCNT1 0) s in
  let s := set_ledPin false s in
  let s := set_PressCounter 0 s in
  let s := set_Blink false s in
  set_feedbackLedOn false s.

(** The four blocks of [loop], in source order. *)

(** Lines 145-153. *)
Definition loop_stop : Cmd state :=
  whenc actionStop
    (modify (set_actionStop false) ;;
     modify (set_actionStart false) ;;
     emit (Print "OFF: Duration ") ;;
     emit_with (fun s => PrintNum (lastDuration s)) ;;
     emit (Println " ms. System Shutdown.") ;;
     modify stopTimer).

(** Lines 156-167; [t] is the value of [millis()] at line 166. *)
Definition loop_short (t : Z) : Cmd state :=
  whenc actionShort
    (modify (set_actionShort false) ;;
     emit (Print "SHORT PRESS: Duration ") ;;
     emit_with (fun s => PrintNum (lastDuration s)) ;;
     emit (Print " ms. Counter = ") ;;
     emit_with (fun s => PrintlnNum (PressCounter s)) ;;
     modify (set_ledPin true) ;;
     modify (set_feedbackLedOn true) ;;
     modify (set_lastFlashStart t)).

(** Lines 170-174; [t] is the value of [millis()] at line 170. *)
Definition loop_flash (t : Z) : Cmd state :=
  whenc (fun s => feedbackLedOn s && (200 <=? sub32 t (lastFlashStart s)))
    (modify (set_ledPin false) ;;
     modify (set_feedbackLedOn false)).

(** Lines 177-197. *)
Definition loop_start : Cmd state :=
  whenc actionStart
    (modify (set_actionStart false) ;;
     ifc (fun s => negb (Blink s) && (0 <? PressCounter s))
       (emit (Print "CONFIRMED: Duration ") ;;
        emit_with (fun s => PrintNum (lastDuration s)) ;;
        emit (Print " ms. Blinking every ") ;;
        emit_with (fun s => PrintNum (PressCounter s)) ;;
        emit (Println " seconds.") ;;
        modify (set_Blink true) ;;
        (fun s => modify (startTimer (PressCounter s)) s))
       (whenc (fun s => negb (Blink s) && (PressCounter s =? 0))
          (emit (Print "ERROR: Long press detected (") ;;
           emit_with (fun s => PrintNum (lastDuration s)) ;;
           emit (Println " ms), but no counts recorded.")))).

(** One pass of [loop]; [t1] and [t2] are the two readings of [millis()]. *)
Definition loop (t1 t2 : Z) : Cmd state :=
  loop_stop ;; loop_short t1 ;; loop_flash t2 ;; loop_start.

End Part000.

(** ** src/HWs/HW3/HW3/src/RoniMain.cpp, lines 284-413 *)

Module RoniIsr.

Definition SHORT_PRESS_TIME : Z := 1500.
Definition LONG_PRESS_TIME  : Z := 4000.
Definition DEBOUNCE_TIME    : Z := 50.

Record state : Type := mkState {
  PressCounter   : Z;      (* volatile int *)
  pressTime      : Z;      (* volatile unsigned long *)
  lastISRTime    : Z;      (* volatile unsigned long *)
  actionShort    : bool;
  actionStart    : bool;
  actionStop     : bool;
  Blink          : bool;
  lastFlashStart : Z;      (* unsigned long *)
  feedbackLedOn  : bool;
  ledPin         : bool;   (* level driven on pin 10, HIGH = true *)
  tmr            : timer1
}.

Definition set_PressCounter (v : Z) (s : state) : state :=
  mkState v (pressTime s) (lastISRTime s) (actionShort s) (actionStart s)
    (actionStop s) (Blink s) (lastFlashStart s) (feedbackLedOn s)
    (ledPin s) (tmr s).
Definition set_pressTime (v : Z) (s : state) : state :=
  mkState (PressCounter s) v (lastISRTime s) (actionShort s) (actionStart s)
    (actionStop s) (Blink s) (lastFlashStart s) (feedbackLedOn s)
    (ledPin s) (tmr s).
Definition set_lastISRTime (v : Z) (s : state) : state :=
  mkState (PressCounter s) (pressTime s) v (actionShort s) (actionStart s)
    (actionStop s) (Blink s) (lastFlashStart s) (feedbackLedOn s)
    (ledPin s) (tmr s).
Definition set_actionShort (v : bool) (s : state) : state :=
  mkState (PressCounter s) (pressTime s) (lastISRTime s) v (actionStart s)
    (actionStop s) (Blink s) (lastFlashStart s) (feedbackLedOn s)
    (ledPin s) (tmr s).
Definition set_actionStart (v : bool) (s : state) : state :=
  mkState (PressCounter s) (pressTime s) (lastISRTime s) (actionShort s) v
    (actionStop s) (Blink s) (lastFlashStart s) (feedbackLedOn s)
    (ledPin s) (tmr s).
Definition set_actionStop (v : bool) (s : state) : state :=
  mkState (PressCounter s) (pressTime s) (lastISRTime s) (actionShort s)
    (actionStart s) v (Blink s) (lastFlashStart s) (feedbackLedOn s)
    (ledPin s) (tmr s).
Definition set_Blink (v : bool) (s : state) : state :=
  mkState (PressCounter s) (pressTime s) (lastISRTime s) (actionShort s)
    (actionStart s) (actionStop s) v (lastFlashStart s) (feedbackLedOn s)
    (ledPin s) (tmr s).
Definition set_lastFlashStart (v : Z) (s : state) : state :=
  mkState (PressCounter s) (pressTime s) (lastISRTime s) (actionShort s)
    (actionStart s) (actionStop s) (Blink s) v (feedbackLedOn s)
    (ledPin s) (tmr s).
Definition set_feedbackLedOn (v : bool) (s : state) : state :=
  mkState (PressCounter s) (pressTime s) (lastISRTime s) (actionShort s)
    (actionStart s) (actionStop s) (Blink s) (lastFlashStart s) v
    (ledPin s) (tmr s).
Definition set_ledPin (v : bool) (s : state) : state :=
  mkState (PressCounter s) (pressTime s) (lastISRTime s) (actionShort s)
    (actionStart s) (actionStop s) (Blink s) (lastFlashStart s)
    (feedbackLedOn s) v (tmr s).
Definition set_tmr (v : timer1) (s : state) : state :=
  mkState (PressCounter s) (pressTime s) (lastISRTime s) (actionShort s)
    (actionStart s) (actionStop s) (Blink s) (lastFlashStart s)
    (feedbackLedOn s) (ledPin s) v.
Definition upd_tmr (f : timer1 -> timer1) (s : state) : state :=
  set_tmr (f (tmr s)) s.

Definition init : state :=
  mkState 0 0 0 false false false false 0 false false timer1_reset.

(** The comparison chain of [buttonISR] (lines 325-336). *)
Definition classify (duration : Z) : PressClassification :=
  if duration <? SHORT_PRESS_TIME then Short
  else if duration <? LONG_PRESS_TIME then Medium
  else Long.

(** [buttonISR] (lines 314-338). *)
Definition buttonISR (now : Z) (level : bool) (s : state) : state :=
  if sub32 now (lastISRTime s) <? DEBOUNCE_TIME then s
  else
    let s := set_lastISRTime now s in
    if level then set_pressTime now s
    else
      let duration := sub32 now (pressTime s) in
      match classify duration with
      | Short =>
          if negb (Blink s)
          then set_actionShort true
                 (set_PressCounter (s16 (PressCounter s + 1)) s)
          else s
      | Medium => set_actionStart true s
      | Long => set_actionStop true s
      end.

(** [ISR(TIMER1_COMPA_vect)] (lines 340-342): no test of [Blink] here. *)
Definition timerISR (s : state) : state := set_ledPin (negb (ledPin s)) s.

(** [startTimer(counts)] (lines 348-356): only a zero count is replaced. *)
Definition startTimer (counts : Z) (s : state) : state :=
  let counts := if counts =? 0 then 1 else counts in
  let s := upd_tmr (set_TCCR1A 0) s in
  let s := upd_tmr (set_TCCR1B 0) s in
  let s := upd_tmr (set_TCNT1 0) s in
  let s := upd_tmr (set_OCR1A (u16 (7812 * counts - 1))) s in
  let s := upd_tmr (fun t => set_TCCR1B
             (Z.lor (TCCR1B t) (Z.lor (bit WGM12) (Z.lor (bit CS12) (bit CS10)))) t) s in
  upd_tmr (fun t => set_TIMSK1 (Z.lor (TIMSK1 t) (bit OCIE1A)) t) s.

(** [stopTimer()] (lines 358-363). *)
Definition stopTimer (s : state) : state :=
  let s := upd_tmr (set_TCCR1B 0) s in
  let s := upd_tmr (set_TIMSK1 0) s in
  let s := set_ledPin false s in
  let s := set_PressCounter 0 s in
  set_Blink false s.

(** Lines 376-384.  [delay(100)] only lets time pass. *)
Definition loop_stop : Cmd state :=
  whenc actionStop
    (modify (set_actionStop false) ;;
     emit (Println "!!! SYSTEM SHUTDOWN !!!") ;;
     emit (Println "The system is turning OFF now...") ;;
     modify stopTimer).

(** Lines 386-394. *)
Definition loop_short (t : Z) : Cmd state :=
  whenc actionShort
    (modify (set_actionShort false) ;;
     emit (Print "Short press number: ") ;;
     emit_with (fun s => PrintlnNum (PressCounter s)) ;;
     modify (set_ledPin true) ;;
     modify (set_feedbackLedOn true) ;;
     modify (set_lastFlashStart t)).

(** Lines 396-399. *)
Definition loop_flash (t : Z) : Cmd state :=
  whenc (fun s => feedbackLedOn s && (200 <=? sub32 t (lastFlashStart s)))
    (modify (set_ledPin false) ;;
     modify (set_feedbackLedOn false)).

(** Lines 402-412. *)
Definition loop_start : Cmd state :=
  whenc actionStart
    (modify (set_actionStart false) ;;
     whenc (fun s => negb (Blink s) && (0 <? PressCounter s))
       (emit (Print "Medium press. Starting with: ") ;;
        emit_with (fun s => PrintlnNum (PressCounter s)) ;;
        modify (set_ledPin false) ;;
        (fun s => modify (startTimer (PressCounter s)) s) ;;
        modify (set_Blink true))).

Definition loop (t1 t2 : Z) : Cmd state :=
  loop_stop ;; loop_short t1 ;; loop_flash t2 ;; loop_start.

End RoniIsr.

(** ** src/HWs/HW3/HW3/src/main.cpp *)

Module MainCpp.

Record state : Type := mkState {
  pressStartTime  : Z;     (* volatile unsigned long *)
  shortPressCount : Z;     (* volatile uint8_t *)
  blinkHalfPeriod : Z;     (* volatile int, never written *)
  ledPin          : bool;  (* level driven on pin 10, HIGH = true *)
  tmr             : timer1
}.

Definition set_pressStartTime (v : Z) (s : state) : state :=
  mkState v (shortPressCount s) (blinkHalfPeriod s) (ledPin s) (tmr s).
Definition set_shortPressCount (v : Z) (s : state) : state :=
  mkState (pressStartTime s) v (blinkHalfPeriod s) (ledPin s) (tmr s).
Definition set_ledPin (v : bool) (s : state) : state :=
  mkState (pressStartTime s) (shortPressCount s) (blinkHalfPeriod s) v (tmr s).
Definition set_tmr (v : timer1) (s : state) : state :=
  mkState (pressStartTime s) (shortPressCount s) (blinkHalfPeriod s) (ledPin s) v.
Definition upd_tmr (f : timer1 -> timer1) (s : state) : state :=
  set_tmr (f (tmr s)) s.

(** The globals' initialisers and the registers after reset. *)
Definition power_on : state := mkState 0 0 0 false timer1_reset.

(** [setup()]: CTC mode and the compare interrupt, clock not yet selected. *)
Definition setup (s : state) : state :=
  let s := upd_tmr (set_TCCR1A 0) s in
  let s := upd_tmr (set_TCCR1B 0) s in
  let s := upd_tmr (set_TCNT1 0) s in
  let s := upd_tmr (fun t => set_TCCR1B (Z.lor (TCCR1B t) (bit WGM12)) t) s in
  upd_tmr (fun t => set_TIMSK1 (Z.lor (TIMSK1 t) (bit OCIE1A)) t) s.

Definition init : state := setup power_on.

(** 32-bit signed [long]. *)
Definition s32 (z : Z) : Z := (z + 2 ^ 31) mod 2 ^ 32 - 2 ^ 31.

(** [startBlinking(count)]: [count * 500] is an [int] product widened to
    [long]; [/] truncates. *)
Definition startBlinking (count : Z) (s : state) : state :=
  if count =? 0 then s
  else
    let intervalMs := s16 (count * 500) in
    let s := upd_tmr
               (set_OCR1A (u16 (Z.quot (s32 (15625 * intervalMs)) 1000 - 1))) s in
    upd_tmr (fun t => set_TCCR1B
               (Z.lor (TCCR1B t) (Z.lor (bit CS12) (bit CS10))) t) s.

(** [stopSystem()]. *)
Definition stopSystem (s : state) : state :=
  let s := upd_tmr (fun t => set_TCCR1B
             (Z.land (TCCR1B t)
                (Z.lnot (Z.lor (bit CS12) (Z.lor (bit CS11) (bit CS10))))) t) s in
  let s := set_ledPin false s in
  set_shortPressCount 0 s.

(** The comparison chain of [handleButtonISR] (lines 63-75). *)
Definition classify (duration : Z) : PressClassification :=
  if duration <? 1500 then Short
  else if (1500 <=? duration) && (duration <=? 4000) then Medium
  else Long.

(** [handleButtonISR]: no debounce, and the commands run in the handler. *)
Definition handleButtonISR (now : Z) (level : bool) (s : state) : state :=
  if level then set_pressStartTime now s
  else
    let duration := sub32 now (pressStartTime s) in
    match classify duration with
    | Short => set_shortPressCount (u8 (shortPressCount s + 1)) s
    | Medium => startBlinking (shortPressCount s) s
    | Long => stopSystem s
    end.

(** [ISR(TIMER1_COMPA_vect)]. *)
Definition timerISR (s : state) : state := set_ledPin (negb (ledPin s)) s.

(** This sketch never touches [Serial]: as a command, a button interrupt
    prints nothing. *)
Definition handleButton (now : Z) (level : bool) : Cmd state :=
  modify (handleButtonISR now level).

End MainCpp.

(** ** src/HWs/HW3/HW3/src/RoniMain.cpp, lines 88-196 *)

Module RoniPoll.

Definition SHORT_PRESS_TIME : Z := 1500.
Definition LONG_PRESS_TIME  : Z := 4000.
Definition interval         : Z := 500.

(** *** The millisecond counter shared with the Timer2 handler

    [systemMs] is four bytes wide and the CPU moves one byte per
    instruction, so [t = systemMs] is four loads.  A compare match of
    Timer2 is served before the next instruction when the global interrupt
    flag is set, and otherwise stays pending in the timer's flag until the
    interrupts are enabled again. *)

Record machine : Type := mkMachine {
  systemMs     : Z;     (* volatile unsigned long *)
  irq_enabled  : bool;  (* global interrupt flag *)
  tick_pending : bool   (* compare-match flag of Timer2 *)
}.

(** [ISR(TIMER2_COMPA_vect)]: [systemMs++]. *)
Definition tickISR (m : machine) : machine :=
  mkMachine (u32 (systemMs m + 1)) (irq_enabled m) (tick_pending m).

(** Timer2 reaches OCR2A. *)
Definition compare_match (m : machine) : machine :=
  if irq_enabled m then tickISR m
  else mkMachine (systemMs m) false true.

Definition byte_of (i : Z) (v : Z) : Z := (v / 2 ^ (8 * i)) mod 2 ^ 8.

Inductive instr : Type :=
| Cli                  (* noInterrupts() *)
| LoadByte (i : Z)     (* byte i of systemMs into byte i of t *)
| Sei.                 (* interrupts() *)

(** One instruction of the main flow on the machine and the local [t]. *)
Definition exec (i : instr) (m : machine) (t : Z) : machine * Z :=
  match i with
  | Cli => (mkMachine (systemMs m) false (tick_pending m), t)
  | LoadByte k => (m, t + byte_of k (systemMs m) * 2 ^ (8 * k))
  | Sei =>
      if tick_pending m
      then (tickISR (mkMachine (systemMs m) true false), t)
      else (mkMachine (systemMs m) true false, t)
  end.

(** Runs [code]; [arrivals] tells, for each instruction, whether a compare
    match happens just before it. *)
Fixpoint run (code : list instr) (arrivals : list bool)
             (m : machine) (t : Z) : machine * Z :=
  match code with
  | [] => (m, t)
  | i :: code' =>
      let m := if hd false arrivals then compare_match m else m in
      let (m', t') := exec i m t in
      run code' (tl arrivals) m' t'
  end.

(** [getSystemMs()]: the machine afterwards and the value returned. *)
Definition getSystemMs (arrivals : list bool) (m : machine) : machine * Z :=
  run [Cli; LoadByte 0; LoadByte 1; LoadByte 2; LoadByte 3; Sei] arrivals m 0.

(** The machine on which [noInterrupts()] executes: a compare match that
    came just before it has been served or, with the interrupts already
    off, noted. *)
Definition at_cli (arrivals : list bool) (m : machine) : machine :=
  if hd false arrivals then compare_match m else m.

(** The same copy without the guard, for comparison. *)
Definition unguarded_read (arrivals : list bool) (m : machine) : machine * Z :=
  run [LoadByte 0; LoadByte 1; LoadByte 2; LoadByte 3] arrivals m 0.

(** *** The polling loop *)

Record state : Type := mkState {
  PressCounter   : Z;      (* int *)
  pressed        : bool;
  pressTime      : Z;      (* unsigned long *)
  Blink          : bool;
  blinkInterval  : Z;      (* unsigned long *)
  lastFlashStart : Z;      (* unsigned long *)
  ledOn          : bool;
  ledPin         : bool    (* level driven on pin 13, HIGH = true *)
}.

Definition init : state := mkState 0 false 0 false 0 0 false false.

(** Lines 149-182, for a release seen at [now]. *)
Definition on_release (now : Z) : Cmd state :=
  fun s =>
    let duration := sub32 now (pressTime s) in
    if duration <=? SHORT_PRESS_TIME then
      let n := s16 (PressCounter s + 1) in
      (mkState n false (pressTime s) (Blink s) (blinkInterval s) now true true,
       [Print "Short press number: "; PrintlnNum n])
    else if duration <=? LONG_PRESS_TIME then
      let bi := if PressCounter s =? 1 then 1000
                else if PressCounter s =? 2 then 2000 else 3000 in
      (mkState (PressCounter s) false (pressTime s) true bi now true true,
       [Println "Medium press"])
    else
      (mkState 0 false (pressTime s) false (blinkInterval s)
         (lastFlashStart s) false false,
       [Println "Long press - LED off"]).

(** The body of [loop] after [now = getSystemMs()]; [lvl1] and [lvl2] are
    the two readings of the button pin (pull-up: LOW = pressed). *)
Definition loop_body (now : Z) (lvl1 lvl2 : bool) : Cmd state :=
  whenc (fun s => negb lvl1 && negb (pressed s))
    (modify (fun s => mkState (PressCounter s) true now (Blink s)
                        (blinkInterval s) (lastFlashStart s) (ledOn s) (ledPin s))) ;;
  whenc (fun s => lvl2 && pressed s) (on_release now) ;;
  whenc (fun s => ledOn s && (interval <=? sub32 now (lastFlashStart s)))
    (modify (fun s => mkState (PressCounter s) (pressed s) (pressTime s) (Blink s)
                        (blinkInterval s) (lastFlashStart s) false false)) ;;
  whenc (fun s => Blink s && negb (ledOn s)
                  && (blinkInterval s <=? sub32 now (lastFlashStart s)))
    (modify (fun s => mkState (PressCounter s) (pressed s) (pressTime s) (Blink s)
                        (blinkInterval s) now true true)).

(** One pass of [loop]: the only access of the main flow to [systemMs] is
    the call of [getSystemMs] at its top. *)
Definition loop (arrivals : list bool) (lvl1 lvl2 : bool)
                (ms : machine * state) : (machine * state) * list SerialItem :=
  let (m', now) := getSystemMs arrivals (fst ms) in
  let (s', out) := loop_body now lvl1 lvl2 (snd ms) in
  ((m', s'), out).

End RoniPoll.

(** ** Scenarios

    Sequences of handler calls and [loop] passes used to reach the states
    the statements below are evaluated on. *)

Module Scenario.

(** A press at [t] released [d] ms later, then one pass of [loop]
    (part_000). *)
Definition press000 (t d : Z) (s : Part000.state) : Part000.state :=
  let s := Part000.buttonISR (u32 t) true s in
  let s := Part000.buttonISR (u32 (t + d)) false s in
  fst (Part000.loop (u32 (t + d)) (u32 (t + d)) s).

(** [n] presses of [d] ms, one every 1000 ms, the first at [t]. *)
Fixpoint presses000 (n : nat) (t d : Z) (s : Part000.state) : Part000.state :=
  match n with
  | O => s
  | S n' => presses000 n' (t + 1000) d (press000 t d s)
  end.

(** Passes of [loop] with no interrupt in between; each pair holds the two
    readings of [millis()]. *)
Fixpoint idle000 (ts : list (Z * Z)) (s : Part000.state) : Part000.state :=
  match ts with
  | [] => s
  | (t1, t2) :: ts' => idle000 ts' (fst (Part000.loop t1 t2 s))
  end.

(** The part of the state of part_000 that decides whether the system
    blinks: the feedback flash of [loop] never touches it. *)
Definition same_control (s s' : Part000.state) : Prop :=
  Part000.PressCounter s' = Part000.PressCounter s /\
  Part000.Blink s' = Part000.Blink s /\
  Part000.actionStart s' = Part000.actionStart s /\
  Part000.actionStop s' = Part000.actionStop s /\
  Part000.tmr s' = Part000.tmr s.

(** A press at [t] released [d] ms later (main.cpp). *)
Definition pressMain (t d : Z) (s : MainCpp.state) : MainCpp.state :=
  MainCpp.handleButtonISR (u32 (t + d)) false
    (MainCpp.handleButtonISR (u32 t) true s).

(** main.cpp after three short presses and a 2 s press: the timer runs. *)
Definition mainBlinking3 : MainCpp.state :=
  pressMain 10000 2000
    (pressMain 3000 100 (pressMain 2000 100 (pressMain 1000 100 MainCpp.init))).

(** part_000 after nine short presses, with a pending 2 s press: the two
    interrupts of the long press have run, [loop] has not yet. *)
Definition nineThenMedium : Part000.state :=
  Part000.buttonISR 22000 false
    (Part000.buttonISR 20000 true (presses000 9 1000 100 Part000.init)).

End Scenario.

(** ** Invariants

    While the system blinks, the period in force is the one programmed from
    a count of at least one. *)

Module Invariant.



End Invariant.

(** ** Runs

    Longer sequences of handler calls and passes, and the relations between
    states that the statements on them use. *)

Module Runs.

(** A burst of interrupts on the button pin, each with the reading of
    [millis()] and the level of the pin (part_000). *)
Fixpoint isr000 (evs : list (Z * bool)) (s : Part000.state) : Part000.state :=
  match evs with
  | [] => s
  | (t, level) :: evs' => isr000 evs' (Part000.buttonISR t level s)
  end.

(** The same for the interrupt sketch of RoniMain.cpp. *)
Fixpoint isrRoni (evs : list (Z * bool)) (s : RoniIsr.state) : RoniIsr.state :=
  match evs with
  | [] => s
  | (t, level) :: evs' => isrRoni evs' (RoniIsr.buttonISR t level s)
  end.

(** [n] presses of [d] ms on main.cpp, one every 1000 ms, the first at [t]. *)
Fixpoint pressesMain (n : nat) (t d : Z) (s : MainCpp.state) : MainCpp.state :=
  match n with
  | O => s
  | S n' => pressesMain n' (t + 1000) d (Scenario.pressMain t d s)
  end.

(** Passes of the polling loop at the times [ts] with the button held
    down (pull-up: both readings LOW). *)
Fixpoint held (ts : list Z) (s : RoniPoll.state) : RoniPoll.state :=
  match ts with
  | [] => s
  | t :: ts' => held ts' (fst (RoniPoll.loop_body t false false s))
  end.

(** [n] ticks of Timer2 served one after the other. *)
Fixpoint ticks (n : nat) (m : RoniPoll.machine) : RoniPoll.machine :=
  match n with
  | O => m
  | S n' => ticks n' (RoniPoll.tickISR m)
  end.

(** [n] compare matches of Timer1 in a row (part_000). *)
Fixpoint matches000 (n : nat) (s : Part000.state) : Part000.state :=
  match n with
  | O => s
  | S n' => matches000 n' (Part000.timerISR s)
  end.

(** The timer registers hold values of their width: 8 bits, except the
    16-bit counter and compare register. *)
Definition regs_ok (t : timer1) : Prop :=
  0 <= TCCR1A t < 2 ^ 8 /\ 0 <= TCCR1B t < 2 ^ 8 /\ 0 <= TIMSK1 t < 2 ^ 8 /\
  0 <= TCNT1 t < 2 ^ 16 /\ 0 <= OCR1A t < 2 ^ 16.

(** The state of part_000 seen as a state of RoniMain.cpp's interrupt
    sketch, which has the same globals except [lastDuration]. *)
Definition to_roni (s : Part000.state) : RoniIsr.state :=
  RoniIsr.mkState (Part000.PressCounter s) (Part000.pressTime s)
    (Part000.lastISRTime s) (Part000.actionShort s) (Part000.actionStart s)
    (Part000.actionStop s) (Part000.Blink s) (Part000.lastFlashStart s)
    (Part000.feedbackLedOn s) (Part000.ledPin s) (Part000.tmr s).

(** No flag is pending. *)
Definition quiet000 (s : Part000.state) : Prop :=
  Part000.actionShort s = false /\ Part000.actionStart s = false /\
  Part000.actionStop s = false.

End Runs.

(** * Properties *)

(** ** Machine arithmetic *)

Lemma u32_range (z : Z) : 0 <= u32 z < 2 ^ 32.
Proof. unfold u32. apply Z.mod_pos_bound. reflexivity. Qed.

Lemma u16_range (z : Z) : 0 <= u16 z < 2 ^ 16.
Proof. unfold u16. apply Z.mod_pos_bound. reflexivity. Qed.

Lemma u16_small (z : Z) : 0 <= z < 2 ^ 16 -> u16 z = z.
Proof. intro H. unfold u16. now apply Z.mod_small. Qed.

(** Subtracting two wrapped timestamps gives the time that really passed, as
    long as it is less than a full turn of the counter. *)
Lemma sub32_elapsed (T1 T2 : Z) :
  0 <= T2 - T1 < 2 ^ 32 -> sub32 (u32 T2) (u32 T1) = T2 - T1.
Proof.
  intro H. unfold sub32, u32.
  rewrite <- Zminus_mod. now apply Z.mod_small.
Qed.

(** ** The classifiers *)

Ltac split_ltb :=
  repeat match goal with
  | |- context [?a <? ?b] => destruct (Z.ltb_spec a b)
  | |- context [?a <=? ?b] => destruct (Z.leb_spec a b)
  end.

Lemma part000_classify_spec (d : Z) :
  (Part000.classify d = Short <-> d < 1500) /\
  (Part000.classify d = Medium <-> 1500 <= d < 4000) /\
  (Part000.classify d = Long <-> 4000 <= d).
Proof.
  unfold Part000.classify, Part000.SHORT_PRESS_TIME, Part000.LONG_PRESS_TIME.
  split_ltb; repeat split; intros; try discriminate; try lia; reflexivity.
Qed.

Lemma roniisr_classify_spec (d : Z) :
  (RoniIsr.classify d = Short <-> d < 1500) /\
  (RoniIsr.classify d = Medium <-> 1500 <= d < 4000) /\
  (RoniIsr.classify d = Long <-> 4000 <= d).
Proof.
  unfold RoniIsr.classify, RoniIsr.SHORT_PRESS_TIME, RoniIsr.LONG_PRESS_TIME.
  split_ltb; repeat split; intros; try discriminate; try lia; reflexivity.
Qed.

Lemma maincpp_classify_spec (d : Z) :
  (MainCpp.classify d = Short <-> d < 1500) /\
  (MainCpp.classify d = Medium <-> 1500 <= d <= 4000) /\
  (MainCpp.classify d = Long <-> 4000 < d).
Proof.
  unfold MainCpp.classify.
  split_ltb; simpl; repeat split; intros; try discriminate; try lia; reflexivity.
Qed.

(** C1, as the code has it.  The sketches with flags (part_000 and the
    [buttonISR] of RoniMain.cpp) classify a duration [d] as Short iff
    [d < 1500], Medium iff [1500 <= d < 4000] and Long iff [4000 <= d], so
    1500 is Medium and 4000 is Long.  main.cpp compares with [<= 4000]: there
    Medium is [1500 <= d <= 4000] and Long is [4000 < d], so 4000 is Medium. *)
Theorem classify_boundaries (d : Z) :
  ((Part000.classify d = Short <-> d < 1500) /\
   (Part000.classify d = Medium <-> 1500 <= d < 4000) /\
   (Part000.classify d = Long <-> 4000 <= d)) /\
  ((RoniIsr.classify d = Short <-> d < 1500) /\
   (RoniIsr.classify d = Medium <-> 1500 <= d < 4000) /\
   (RoniIsr.classify d = Long <-> 4000 <= d)) /\
  ((MainCpp.classify d = Short <-> d < 1500) /\
   (MainCpp.classify d = Medium <-> 1500 <= d <= 4000) /\
   (MainCpp.classify d = Long <-> 4000 < d)) /\
  (Part000.classify 1499 = Short /\ Part000.classify 1500 = Medium /\
   Part000.classify 3999 = Medium /\ Part000.classify 4000 = Long) /\
  MainCpp.classify 4000 = Medium.
Proof.
  split; [apply part000_classify_spec|].
  split; [apply roniisr_classify_spec|].
  split; [apply maincpp_classify_spec|].
  split; [repeat split|]; reflexivity.
Qed.

(** C1 as stated fails on main.cpp: a press of exactly 4000 ms is Medium
    there (it starts the blinking, it does not stop the system), so Long is
    not "iff d >= 4000". *)
Lemma classify_4000_main_cpp :
  MainCpp.classify 4000 = Medium /\
  ~ (forall d, MainCpp.classify d = Long <-> 4000 <= d) /\
  (forall s, MainCpp.handleButtonISR 4000 false (MainCpp.set_pressStartTime 0 s)
             = MainCpp.startBlinking (MainCpp.shortPressCount s)
                 (MainCpp.set_pressStartTime 0 s)).
Proof.
  split; [reflexivity|]. split.
  - intro H. destruct (H 4000) as [_ H1].
    specialize (H1 ltac:(lia)). discriminate H1.
  - intro s. reflexivity.
Qed.

(** ** The button handlers *)

Section ButtonISR000.
Import Part000.
Variables (now : Z) (s : state).

Lemma part000_isr_rejected (level : bool) :
  sub32 now (lastISRTime s) < DEBOUNCE_TIME -> buttonISR now level s = s.
Proof.
  intro H. unfold buttonISR.
  destruct (Z.ltb_spec (sub32 now (lastISRTime s)) DEBOUNCE_TIME); [reflexivity | lia].
Qed.

Hypothesis accepted : DEBOUNCE_TIME <= sub32 now (lastISRTime s).

Lemma part000_isr_press :
  buttonISR now true s = set_pressTime now (set_lastISRTime now s).
Proof.
  unfold buttonISR.
  destruct (Z.ltb_spec (sub32 now (lastISRTime s)) DEBOUNCE_TIME); [lia | reflexivity].
Qed.

Lemma part000_isr_release :
  buttonISR now false s =
  let s1 := set_lastDuration (sub32 now (pressTime s)) (set_lastISRTime now s) in
  match classify (sub32 now (pressTime s)) with
  | Short => if Blink s then s1
             else set_actionShort true (set_PressCounter (s16 (PressCounter s + 1)) s1)
  | Medium => set_actionStart true s1
  | Long => set_actionStop true s1
  end.
Proof.
  unfold buttonISR.
  destruct (Z.ltb_spec (sub32 now (lastISRTime s)) DEBOUNCE_TIME); [lia |].
  cbn -[sub32 classify]. destruct (classify _); try reflexivity.
  destruct (Blink s); reflexivity.
Qed.

Lemma part000_isr_stamp (level : bool) :
  lastISRTime (buttonISR now level s) = now.
Proof.
  destruct level.
  - rewrite part000_isr_press. reflexivity.
  - rewrite part000_isr_release. cbv zeta.
    destruct (classify _); try reflexivity. destruct (Blink s); reflexivity.
Qed.
End ButtonISR000.

Section ButtonISRRoni.
Import RoniIsr.
Variables (now : Z) (s : state).

Lemma roniisr_isr_rejected (level : bool) :
  sub32 now (lastISRTime s) < DEBOUNCE_TIME -> buttonISR now level s = s.
Proof.
  intro H. unfold buttonISR.
  destruct (Z.ltb_spec (sub32 now (lastISRTime s)) DEBOUNCE_TIME); [reflexivity | lia].
Qed.

Hypothesis accepted : DEBOUNCE_TIME <= sub32 now (lastISRTime s).

Lemma roniisr_isr_press :
  buttonISR now true s = set_pressTime now (set_lastISRTime now s).
Proof.
  unfold buttonISR.
  destruct (Z.ltb_spec (sub32 now (lastISRTime s)) DEBOUNCE_TIME); [lia | reflexivity].
Qed.

Lemma roniisr_isr_release :
  buttonISR now false s =
  let s1 := set_lastISRTime now s in
  match classify (sub32 now (pressTime s)) with
  | Short => if Blink s then s1
             else set_actionShort true (set_PressCounter (s16 (PressCounter s + 1)) s1)
  | Medium => set_actionStart true s1
  | Long => set_actionStop true s1
  end.
Proof.
  unfold buttonISR.
  destruct (Z.ltb_spec (sub32 now (lastISRTime s)) DEBOUNCE_TIME); [lia |].
  cbn -[sub32 classify]. destruct (classify _); try reflexivity.
  destruct (Blink s); reflexivity.
Qed.

Lemma roniisr_isr_stamp (level : bool) :
  lastISRTime (buttonISR now level s) = now.
Proof.
  destruct level.
  - rewrite roniisr_isr_press. reflexivity.
  - rewrite roniisr_isr_release. cbv zeta.
    destruct (classify _); try reflexivity. destruct (Blink s); reflexivity.
Qed.
End ButtonISRRoni.

(** C6.  Take a transition at [t1] that the handler accepts, then a second
    one at [t2] (readings of [millis()], any pin levels; the distance is the
    unsigned difference of the readings, which [sub32_elapsed] equates with
    the time really passed).  If fewer
    than 50 ms lie between them the second call returns the state untouched,
    so the stored timestamp is still [t1]; if 50 ms or more lie between them
    the second one is accepted as well: the timestamp becomes [t2] and the
    edge is acted on (a rising edge records [pressTime], a falling one the
    duration it measures).  Both in part_000 and in RoniMain.cpp. *)
Theorem debounce_pair
    (s : Part000.state) (r : RoniIsr.state) (t1 t2 : Z) (l1 l2 : bool)
    (Hs : Part000.DEBOUNCE_TIME <= sub32 t1 (Part000.lastISRTime s))
    (Hr : RoniIsr.DEBOUNCE_TIME <= sub32 t1 (RoniIsr.lastISRTime r)) :
  let s1 := Part000.buttonISR t1 l1 s in
  let r1 := RoniIsr.buttonISR t1 l1 r in
  (Part000.lastISRTime s1 = t1 /\ RoniIsr.lastISRTime r1 = t1) /\
  (sub32 t2 t1 < 50 ->
     Part000.buttonISR t2 l2 s1 = s1 /\ RoniIsr.buttonISR t2 l2 r1 = r1 /\
     Part000.lastISRTime (Part000.buttonISR t2 l2 s1) = t1 /\
     RoniIsr.lastISRTime (RoniIsr.buttonISR t2 l2 r1) = t1) /\
  (50 <= sub32 t2 t1 ->
     Part000.lastISRTime (Part000.buttonISR t2 l2 s1) = t2 /\
     RoniIsr.lastISRTime (RoniIsr.buttonISR t2 l2 r1) = t2 /\
     (l2 = true ->
        Part000.pressTime (Part000.buttonISR t2 l2 s1) = t2 /\
        RoniIsr.pressTime (RoniIsr.buttonISR t2 l2 r1) = t2) /\
     (l2 = false ->
        Part000.lastDuration (Part000.buttonISR t2 l2 s1)
        = sub32 t2 (Part000.pressTime s1))).
Proof.
  intros s1 r1.
  assert (Es : Part000.lastISRTime s1 = t1) by (apply part000_isr_stamp; exact Hs).
  assert (Er : RoniIsr.lastISRTime r1 = t1) by (apply roniisr_isr_stamp; exact Hr).
  split; [split; assumption|]. split.
  - intro Hlt.
    assert (Rs : Part000.buttonISR t2 l2 s1 = s1)
      by (apply part000_isr_rejected; rewrite Es; exact Hlt).
    assert (Rr : RoniIsr.buttonISR t2 l2 r1 = r1)
      by (apply roniisr_isr_rejected; rewrite Er; exact Hlt).
    rewrite Rs, Rr. repeat split; assumption.
  - intro Hge.
    assert (As : Part000.DEBOUNCE_TIME <= sub32 t2 (Part000.lastISRTime s1))
      by (rewrite Es; exact Hge).
    assert (Ar : RoniIsr.DEBOUNCE_TIME <= sub32 t2 (RoniIsr.lastISRTime r1))
      by (rewrite Er; exact Hge).
    split; [apply part000_isr_stamp; exact As|].
    split; [apply roniisr_isr_stamp; exact Ar|].
    split; intro El; subst l2.
    + rewrite part000_isr_press, roniisr_isr_press by assumption.
      split; reflexivity.
    + rewrite part000_isr_release by assumption. cbv zeta.
      destruct (Part000.classify _); try reflexivity.
      destruct (Part000.Blink s1); reflexivity.
Qed.

(** A press at 1000 ms followed by a bounce 20 ms later and a release 300 ms
    later: the bounce is dropped, the release is taken. *)
Lemma debounce_pair_witness :
  Part000.buttonISR 1020 false (Part000.buttonISR 1000 true Part000.init)
  = Part000.buttonISR 1000 true Part000.init /\
  Part000.lastISRTime
    (Part000.buttonISR 1300 false (Part000.buttonISR 1000 true Part000.init)) = 1300.
Proof.
  assert (Hs : Part000.DEBOUNCE_TIME <= sub32 1000 (Part000.lastISRTime Part000.init))
    by (vm_compute; discriminate).
  assert (Hr : RoniIsr.DEBOUNCE_TIME <= sub32 1000 (RoniIsr.lastISRTime RoniIsr.init))
    by (vm_compute; discriminate).
  split.
  - apply (debounce_pair Part000.init RoniIsr.init 1000 1020 true false Hs Hr).
    vm_compute. reflexivity.
  - apply (debounce_pair Part000.init RoniIsr.init 1000 1300 true false Hs Hr).
    vm_compute. discriminate.
Defined.

(** C7.  A press taken at real time [T1] and released at [T2], less than
    2^32 ms later: the handlers only see the wrapped readings [u32 T1] and
    [u32 T2], and the unsigned difference they compute is the time that
    really passed, [T2 - T1], also when the counter wrapped in between.
    part_000 stores exactly that in [lastDuration] and main.cpp dispatches on
    its class.  With readings 0xFFFFFFF0 and 0x00000010 the difference is
    0x20. *)
Theorem wraparound_duration
    (s : Part000.state) (m : MainCpp.state) (T1 T2 : Z)
    (Helapsed : 0 <= T2 - T1 < 2 ^ 32)
    (Hpress : Part000.DEBOUNCE_TIME <= sub32 (u32 T1) (Part000.lastISRTime s))
    (Hrelease : Part000.DEBOUNCE_TIME <= T2 - T1) :
  sub32 (u32 T2) (u32 T1) = T2 - T1 /\
  sub32 0x00000010 0xFFFFFFF0 = 0x20 /\
  Part000.lastDuration
    (Part000.buttonISR (u32 T2) false (Part000.buttonISR (u32 T1) true s))
  = T2 - T1 /\
  MainCpp.handleButtonISR (u32 T2) false (MainCpp.handleButtonISR (u32 T1) true m)
  = (let m1 := MainCpp.set_pressStartTime (u32 T1) m in
     match MainCpp.classify (T2 - T1) with
     | Short => MainCpp.set_shortPressCount (u8 (MainCpp.shortPressCount m + 1)) m1
     | Medium => MainCpp.startBlinking (MainCpp.shortPressCount m) m1
     | Long => MainCpp.stopSystem m1
     end).
Proof.
  pose proof (sub32_elapsed T1 T2 Helapsed) as E.
  split; [exact E|]. split; [reflexivity|]. split.
  - rewrite (part000_isr_press _ _ Hpress).
    rewrite part000_isr_release.
    + cbn [Part000.pressTime Part000.set_pressTime Part000.set_lastISRTime].
      rewrite E. cbv zeta.
      destruct (Part000.classify _); try reflexivity.
      destruct (Part000.Blink _); reflexivity.
    + cbn [Part000.lastISRTime Part000.set_pressTime Part000.set_lastISRTime].
      rewrite E. exact Hrelease.
  - unfold MainCpp.handleButtonISR.
    cbn [MainCpp.pressStartTime MainCpp.set_pressStartTime MainCpp.shortPressCount].
    rewrite E. reflexivity.
Qed.

(** Pressed 16 ms before the counter wraps, released 100 ms after. *)
Lemma wraparound_duration_witness :
  Part000.lastDuration
    (Part000.buttonISR (u32 (2 ^ 32 + 100)) false
       (Part000.buttonISR (u32 (2 ^ 32 - 16)) true Part000.init))
  = 116.
Proof.
  refine (proj1 (proj2 (proj2
    (wraparound_duration Part000.init MainCpp.init (2 ^ 32 - 16) (2 ^ 32 + 100) _ _ _)))).
  - lia.
  - vm_compute. discriminate.
  - vm_compute. discriminate.
Defined.

(** C5, as the code has it.  A release classified Short that arrives while
    the system blinks: in part_000 and in the [buttonISR] of RoniMain.cpp the
    handler only records its own timestamp (and, in part_000, the measured
    duration); the counter, [Blink], the timer registers, the LED and the
    three flags are as before.  main.cpp has no such guard: the same event
    adds one to [shortPressCount] (an 8-bit counter) and leaves the timer and
    the LED alone. *)
Theorem short_while_blinking
    (s : Part000.state) (r : RoniIsr.state) (m : MainCpp.state) (now : Z)
    (Hs_acc : Part000.DEBOUNCE_TIME <= sub32 now (Part000.lastISRTime s))
    (Hr_acc : RoniIsr.DEBOUNCE_TIME <= sub32 now (RoniIsr.lastISRTime r))
    (Hs_blink : Part000.Blink s = true)
    (Hr_blink : RoniIsr.Blink r = true)
    (Hs_short : Part000.classify (sub32 now (Part000.pressTime s)) = Short)
    (Hr_short : RoniIsr.classify (sub32 now (RoniIsr.pressTime r)) = Short)
    (Hm_short : MainCpp.classify (sub32 now (MainCpp.pressStartTime m)) = Short) :
  let s' := Part000.buttonISR now false s in
  let r' := RoniIsr.buttonISR now false r in
  let m' := MainCpp.handleButtonISR now false m in
  (s' = Part000.set_lastDuration (sub32 now (Part000.pressTime s))
          (Part000.set_lastISRTime now s) /\
   Part000.PressCounter s' = Part000.PressCounter s /\
   Part000.Blink s' = true /\
   Part000.tmr s' = Part000.tmr s /\
   Part000.ledPin s' = Part000.ledPin s /\
   Part000.actionShort s' = Part000.actionShort s) /\
  (r' = RoniIsr.set_lastISRTime now r /\
   RoniIsr.PressCounter r' = RoniIsr.PressCounter r /\
   RoniIsr.Blink r' = true /\
   RoniIsr.tmr r' = RoniIsr.tmr r /\
   RoniIsr.ledPin r' = RoniIsr.ledPin r /\
   RoniIsr.actionShort r' = RoniIsr.actionShort r) /\
  (m' = MainCpp.set_shortPressCount (u8 (MainCpp.shortPressCount m + 1)) m /\
   MainCpp.tmr m' = MainCpp.tmr m /\
   MainCpp.ledPin m' = MainCpp.ledPin m).
Proof.
  intros s' r' m'.
  assert (Es : s' = Part000.set_lastDuration (sub32 now (Part000.pressTime s))
                      (Part000.set_lastISRTime now s)).
  { unfold s'. rewrite (part000_isr_release _ _ Hs_acc), Hs_short, Hs_blink.
    reflexivity. }
  assert (Er : r' = RoniIsr.set_lastISRTime now r).
  { unfold r'. rewrite (roniisr_isr_release _ _ Hr_acc), Hr_short, Hr_blink.
    reflexivity. }
  assert (Em : m' = MainCpp.set_shortPressCount (u8 (MainCpp.shortPressCount m + 1)) m).
  { unfold m', MainCpp.handleButtonISR. rewrite Hm_short. reflexivity. }
  split; [|split].
  - split; [exact Es|]. rewrite Es. cbn. repeat split; try reflexivity. exact Hs_blink.
  - split; [exact Er|]. rewrite Er. cbn. repeat split; try reflexivity. exact Hr_blink.
  - split; [exact Em|]. rewrite Em. split; reflexivity.
Qed.

(** C5 as stated fails on main.cpp: with the timer running after three
    counted presses, a further 100 ms press makes the counter 4. *)
Lemma short_press_counts_while_blinking_main_cpp :
  clock_bits (MainCpp.tmr Scenario.mainBlinking3) <> 0 /\
  MainCpp.shortPressCount Scenario.mainBlinking3 = 3 /\
  MainCpp.classify 100 = Short /\
  MainCpp.shortPressCount (Scenario.pressMain 20000 100 Scenario.mainBlinking3) = 4.
Proof. vm_compute. repeat split; discriminate. Qed.

(** A 100 ms press released while [Blink] is set. *)
Lemma short_while_blinking_witness :
  Part000.PressCounter
    (Part000.buttonISR 100 false (Part000.set_Blink true Part000.init)) = 0 /\
  MainCpp.shortPressCount (MainCpp.handleButtonISR 100 false MainCpp.init) = 1.
Proof.
  pose proof (short_while_blinking
                (Part000.set_Blink true Part000.init)
                (RoniIsr.set_Blink true RoniIsr.init)
                MainCpp.init 100
                ltac:(vm_compute; discriminate) ltac:(vm_compute; discriminate)
                eq_refl eq_refl eq_refl eq_refl eq_refl) as H.
  cbv zeta in H. destruct H as [[_ [Hc _]] [_ [Hm _]]].
  split.
  - rewrite Hc. reflexivity.
  - rewrite Hm. reflexivity.
Defined.

(** ** Commands of [loop] *)

Section CommandFacts.
Context {St : Type}.
Implicit Types (c : Cmd St) (s : St).

Lemma andthen_fst c1 c2 s : fst ((c1 ;; c2) s) = fst (c2 (fst (c1 s))).
Proof.
  unfold andthen. destruct (c1 s) as [s1 o1]. cbn.
  destruct (c2 s1) as [s2 o2]. reflexivity.
Qed.

Lemma whenc_false (b : St -> bool) c s : b s = false -> whenc b c s = (s, []).
Proof. intro H. unfold whenc, ifc. rewrite H. reflexivity. Qed.

Lemma whenc_true (b : St -> bool) c s : b s = true -> whenc b c s = c s.
Proof. intro H. unfold whenc, ifc. rewrite H. reflexivity. Qed.
End CommandFacts.

(** ** The dispatcher of part_000 *)

Section Dispatch000.
Import Part000 Scenario.

Lemma part000_loop_stop_idle s : actionStop s = false -> loop_stop s = (s, []).
Proof. apply whenc_false. Qed.

Lemma part000_loop_start_idle s : actionStart s = false -> loop_start s = (s, []).
Proof. apply whenc_false. Qed.

Lemma part000_loop_stop_fires s :
  actionStop s = true ->
  loop_stop s =
  (stopTimer (set_actionStart false (set_actionStop false s)),
   [Print "OFF: Duration "; PrintNum (lastDuration s);
    Println " ms. System Shutdown."]).
Proof.
  intro H. unfold loop_stop. rewrite whenc_true by exact H. reflexivity.
Qed.

Lemma part000_loop_short_frame t s : same_control s (fst (loop_short t s)).
Proof.
  unfold loop_short, whenc, ifc, same_control.
  destruct (actionShort s); cbn; repeat split; reflexivity.
Qed.

Lemma part000_loop_flash_frame t s : same_control s (fst (loop_flash t s)).
Proof.
  unfold loop_flash, whenc, ifc, same_control.
  destruct (feedbackLedOn s && _); cbn; repeat split; reflexivity.
Qed.

Lemma part000_loop_fst t1 t2 s :
  fst (loop t1 t2 s)
  = fst (loop_start (fst (loop_flash t2 (fst (loop_short t1 (fst (loop_stop s))))))).
Proof. unfold loop. rewrite !andthen_fst. reflexivity. Qed.

(** The timer registers after [stopTimer]. *)
Lemma part000_stopTimer_off s :
  compare_irq_enabled (tmr (stopTimer s)) = false /\
  clock_bits (tmr (stopTimer s)) = 0.
Proof.
  unfold compare_irq_enabled, clock_bits.
  cbn [tmr stopTimer upd_tmr set_tmr set_ledPin set_PressCounter set_Blink
       set_feedbackLedOn set_TIMSK1 set_TCCR1B set_TCCR1A set_TCNT1
       TIMSK1 TCCR1B].
  split; [|reflexivity].
  rewrite Z.land_spec. change (Z.testbit (Z.lnot (bit OCIE1A)) OCIE1A) with false.
  apply andb_false_r.
Qed.

Lemma part000_stopTimer_idem s : stopTimer (stopTimer s) = stopTimer s.
Proof.
  destruct s as [pc pt li ld ash ast asp bl fb lf lp [a b c o k]].
  cbv -[Z.land]. do 2 f_equal.
  rewrite <- Z.land_assoc. reflexivity.
Qed.

(** A pass of [loop] with neither a stop nor a start pending. *)
Lemma part000_loop_idle t1 t2 s :
  actionStop s = false -> actionStart s = false ->
  same_control s (fst (loop t1 t2 s)).
Proof.
  intros Hstop Hstart. rewrite part000_loop_fst.
  rewrite (part000_loop_stop_idle s Hstop). cbn [fst].
  destruct (part000_loop_short_frame t1 s) as (A1 & A2 & A3 & A4 & A5).
  destruct (part000_loop_flash_frame t2 (fst (loop_short t1 s)))
    as (B1 & B2 & B3 & B4 & B5).
  rewrite part000_loop_start_idle by congruence. cbn [fst].
  unfold same_control. repeat split; congruence.
Qed.

Lemma part000_idle_run ts : forall s,
  actionStop s = false -> actionStart s = false ->
  same_control s (Scenario.idle000 ts s).
Proof.
  induction ts as [| [t1 t2] ts IH]; intros s Hstop Hstart.
  - unfold same_control. cbn. repeat split; reflexivity.
  - cbn [Scenario.idle000].
    destruct (part000_loop_idle t1 t2 s Hstop Hstart) as (A1 & A2 & A3 & A4 & A5).
    destruct (IH (fst (loop t1 t2 s))) as (B1 & B2 & B3 & B4 & B5); try congruence.
    unfold same_control. repeat split; congruence.
Qed.
End Dispatch000.

(** ** main.cpp *)

Section DispatchMain.
Import MainCpp.

Lemma maincpp_stopSystem_idem m : stopSystem (stopSystem m) = stopSystem m.
Proof.
  destruct m as [pt n hp lp [a b c o k]].
  cbv -[Z.land]. do 2 f_equal.
  rewrite <- Z.land_assoc. reflexivity.
Qed.

Lemma maincpp_stopSystem_off m :
  shortPressCount (stopSystem m) = 0 /\ ledPin (stopSystem m) = false /\
  clock_bits (tmr (stopSystem m)) = 0.
Proof.
  destruct m as [pt n hp lp [a b c o k]].
  cbv -[Z.land]. repeat split.
  rewrite <- Z.land_assoc. apply Z.land_0_r.
Qed.
End DispatchMain.

(** C3, as the code has it.  part_000: with a start pending, [Blink] clear
    and a zero counter, the start block of [loop] consumes the flag, prints
    the "ERROR: Long press detected ..." line and changes nothing else; so
    does a whole pass of [loop] when nothing else is pending.  main.cpp: a
    Medium press with a zero counter returns from [startBlinking] at once;
    the state is untouched and nothing is printed, this sketch having no
    serial output. *)
Theorem medium_without_count
    (s : Part000.state) (m : MainCpp.state) (now t1 t2 : Z)
    (Hstart : Part000.actionStart s = true)
    (Hblink : Part000.Blink s = false)
    (Hcount : Part000.PressCounter s = 0)
    (Hm_medium : MainCpp.classify (sub32 now (MainCpp.pressStartTime m)) = Medium)
    (Hm_count : MainCpp.shortPressCount m = 0) :
  Part000.loop_start s
  = (Part000.set_actionStart false s,
     [Print "ERROR: Long press detected ("; PrintNum (Part000.lastDuration s);
      Println " ms), but no counts recorded."]) /\
  (Part000.actionStop s = false -> Part000.actionShort s = false ->
   Part000.feedbackLedOn s = false ->
   Part000.loop t1 t2 s
   = (Part000.set_actionStart false s,
      [Print "ERROR: Long press detected ("; PrintNum (Part000.lastDuration s);
       Println " ms), but no counts recorded."])) /\
  MainCpp.handleButton now false m = (m, []).
Proof.
  assert (E : Part000.loop_start s
              = (Part000.set_actionStart false s,
                 [Print "ERROR: Long press detected (";
                  PrintNum (Part000.lastDuration s);
                  Println " ms), but no counts recorded."])).
  { unfold Part000.loop_start. rewrite whenc_true by exact Hstart.
    unfold andthen, modify, ifc, whenc, ifc, emit, emit_with, skip.
    cbn [Part000.Blink Part000.PressCounter Part000.set_actionStart
         Part000.lastDuration].
    rewrite Hblink, Hcount. reflexivity. }
  split; [exact E|]. split.
  - intros Hstop Hshort Hfb. unfold Part000.loop, andthen.
    rewrite (part000_loop_stop_idle s Hstop).
    unfold Part000.loop_short. rewrite whenc_false by exact Hshort.
    unfold Part000.loop_flash. rewrite whenc_false by (rewrite Hfb; reflexivity).
    rewrite E. reflexivity.
  - unfold MainCpp.handleButton, modify, MainCpp.handleButtonISR.
    rewrite Hm_medium, Hm_count. reflexivity.
Qed.

(** A 2 s press on the freshly started system. *)
Lemma medium_without_count_witness :
  fst (Part000.loop_start (Part000.buttonISR 2000 false Part000.init))
  = Part000.set_actionStart false (Part000.buttonISR 2000 false Part000.init) /\
  MainCpp.handleButton 2000 false MainCpp.init = (MainCpp.init, []).
Proof.
  pose proof (medium_without_count
                (Part000.buttonISR 2000 false Part000.init) MainCpp.init 2000 0 0
                eq_refl eq_refl eq_refl eq_refl eq_refl) as [H1 [_ H2]].
  split.
  - rewrite H1. reflexivity.
  - exact H2.
Defined.

(** C3 as stated fails on main.cpp: a Medium press with a zero counter is
    dropped there without any diagnostic. *)
Lemma medium_without_count_silent_main_cpp :
  MainCpp.classify (sub32 2000 (MainCpp.pressStartTime MainCpp.init)) = Medium /\
  MainCpp.shortPressCount MainCpp.init = 0 /\
  snd (MainCpp.handleButton 2000 false MainCpp.init) = [] /\
  ~ (exists i, In i (snd (MainCpp.handleButton 2000 false MainCpp.init))).
Proof.
  repeat split; try reflexivity.
  intros [i Hi]. exact Hi.
Qed.

(** C4.  Stopping twice is the same as stopping once.  part_000: the stop
    block of [loop], run on a raised [actionStop], leaves a state that a
    second raised [actionStop] maps to itself, with the counter zero,
    [Blink] and the feedback flag clear, the LED low, the compare interrupt
    disabled and the clock stopped; [stopTimer] itself is idempotent.
    main.cpp: a release classified Long runs [stopSystem]; a second one
    changes nothing, the counter is zero, the LED low and the clock
    stopped. *)
Theorem long_is_idempotent
    (s : Part000.state) (m : MainCpp.state) (t1 t2 : Z)
    (H1 : MainCpp.classify (sub32 t1 (MainCpp.pressStartTime m)) = Long)
    (H2 : MainCpp.classify (sub32 t2 (MainCpp.pressStartTime m)) = Long) :
  let once := fst (Part000.loop_stop (Part000.set_actionStop true s)) in
  let once_m := MainCpp.handleButtonISR t1 false m in
  (fst (Part000.loop_stop (Part000.set_actionStop true once)) = once /\
   Part000.stopTimer (Part000.stopTimer s) = Part000.stopTimer s /\
   Part000.PressCounter once = 0 /\ Part000.Blink once = false /\
   Part000.feedbackLedOn once = false /\ Part000.ledPin once = false /\
   compare_irq_enabled (Part000.tmr once) = false /\
   clock_bits (Part000.tmr once) = 0) /\
  (MainCpp.handleButtonISR t2 false once_m = once_m /\
   MainCpp.stopSystem (MainCpp.stopSystem m) = MainCpp.stopSystem m /\
   MainCpp.shortPressCount once_m = 0 /\ MainCpp.ledPin once_m = false /\
   clock_bits (MainCpp.tmr once_m) = 0).
Proof.
  intros once once_m. split.
  - assert (E : forall x, fst (Part000.loop_stop (Part000.set_actionStop true x))
                          = Part000.stopTimer
                              (Part000.set_actionStart false
                                 (Part000.set_actionStop false x))).
    { intro x. rewrite part000_loop_stop_fires by reflexivity.
      destruct x as [pc pt li ld ash ast asp bl fb lf lp [a b c o k]]. reflexivity. }
    unfold once. rewrite !E.
    split; [|split; [apply part000_stopTimer_idem|]].
    + destruct s as [pc pt li ld ash ast asp bl fb lf lp [a b c o k]].
      cbv -[Z.land]. do 2 f_equal. rewrite <- Z.land_assoc. reflexivity.
    + destruct (part000_stopTimer_off
                  (Part000.set_actionStart false (Part000.set_actionStop false s)))
        as [A B].
      repeat split; try reflexivity; assumption.
  - assert (E : once_m = MainCpp.stopSystem m).
    { unfold once_m, MainCpp.handleButtonISR. rewrite H1. reflexivity. }
    split.
    + unfold MainCpp.handleButtonISR at 1.
      rewrite E.
      change (MainCpp.pressStartTime (MainCpp.stopSystem m))
        with (MainCpp.pressStartTime m).
      rewrite H2. apply maincpp_stopSystem_idem.
    + split; [apply maincpp_stopSystem_idem|].
      rewrite E. apply maincpp_stopSystem_off.
Qed.

(** Two presses of 5 s and 6 s on main.cpp after it started blinking. *)
Lemma long_is_idempotent_witness :
  MainCpp.handleButtonISR 16000 false
    (MainCpp.handleButtonISR 15000 false Scenario.mainBlinking3)
  = MainCpp.handleButtonISR 15000 false Scenario.mainBlinking3 /\
  clock_bits (MainCpp.tmr (MainCpp.handleButtonISR 15000 false Scenario.mainBlinking3)) = 0.
Proof.
  pose proof (long_is_idempotent Part000.init Scenario.mainBlinking3 15000 16000
                eq_refl eq_refl) as H.
  cbv zeta in H. destruct H as [_ [Ha [_ [_ [_ Hb]]]]].
  split; [exact Ha | exact Hb].
Defined.

(** C10.  part_000: a pass of [loop] that finds [actionStop] raised ends with
    both [actionStop] and [actionStart] clear, [Blink] clear, the counter
    zero, the compare interrupt disabled and the clock stopped, whatever
    [actionStart] and the counter were before; the start block of that pass
    prints nothing.  Any number of further passes without a new interrupt
    leave all of this as it is: the start that was pending is never
    dispatched. *)
Theorem stop_cancels_pending_start
    (s : Part000.state) (t1 t2 : Z) (ts : list (Z * Z))
    (Hstop : Part000.actionStop s = true) :
  let s' := fst (Part000.loop t1 t2 s) in
  let s'' := Scenario.idle000 ts s' in
  (Part000.actionStop s' = false /\ Part000.actionStart s' = false /\
   Part000.Blink s' = false /\ Part000.PressCounter s' = 0 /\
   compare_irq_enabled (Part000.tmr s') = false /\
   clock_bits (Part000.tmr s') = 0) /\
  Part000.loop_start
    (fst (Part000.loop_flash t2 (fst (Part000.loop_short t1 (fst (Part000.loop_stop s))))))
  = (s', []) /\
  (Part000.actionStop s'' = false /\ Part000.actionStart s'' = false /\
   Part000.Blink s'' = false /\ Part000.PressCounter s'' = 0 /\
   compare_irq_enabled (Part000.tmr s'') = false /\
   clock_bits (Part000.tmr s'') = 0).
Proof.
  intros s' s''.
  set (s0 := Part000.stopTimer
               (Part000.set_actionStart false (Part000.set_actionStop false s))).
  assert (E0 : fst (Part000.loop_stop s) = s0)
    by (rewrite (part000_loop_stop_fires s Hstop); reflexivity).
  destruct (part000_loop_short_frame t1 s0) as (A1 & A2 & A3 & A4 & A5).
  destruct (part000_loop_flash_frame t2 (fst (Part000.loop_short t1 s0)))
    as (B1 & B2 & B3 & B4 & B5).
  set (s2 := fst (Part000.loop_flash t2 (fst (Part000.loop_short t1 s0)))) in *.
  assert (Hidle : Part000.loop_start s2 = (s2, [])).
  { apply part000_loop_start_idle. rewrite B3, A3. reflexivity. }
  assert (E' : s' = s2).
  { unfold s'. rewrite part000_loop_fst, E0. fold s2. rewrite Hidle. reflexivity. }
  destruct (part000_stopTimer_off
              (Part000.set_actionStart false (Part000.set_actionStop false s)))
    as [Hirq Hclk]. fold s0 in Hirq, Hclk.
  assert (P' : Part000.actionStop s' = false /\ Part000.actionStart s' = false /\
               Part000.Blink s' = false /\ Part000.PressCounter s' = 0 /\
               compare_irq_enabled (Part000.tmr s') = false /\
               clock_bits (Part000.tmr s') = 0).
  { rewrite E'. rewrite B1, B2, B3, B4, B5, A1, A2, A3, A4, A5.
    repeat split; try reflexivity; assumption. }
  split; [exact P'|]. split.
  - rewrite E0. fold s2. rewrite E'. exact Hidle.
  - destruct P' as (P1 & P2 & P3 & P4 & P5 & P6).
    destruct (part000_idle_run ts s' P1 P2) as (C1 & C2 & C3 & C4 & C5).
    fold s'' in C1, C2, C3, C4, C5.
    rewrite C1, C2, C3, C4, C5. repeat split; assumption.
Qed.

(** Three counted presses, then a 5 s press and, before [loop] runs again, a
    2 s press: both flags are pending when [loop] runs. *)
Lemma stop_cancels_pending_start_witness :
  let s := Part000.buttonISR 22000 false
             (Part000.buttonISR 20000 true
                (Part000.buttonISR 15000 false
                   (Part000.buttonISR 10000 true
                      (Scenario.presses000 3 1000 100 Part000.init)))) in
  (Part000.actionStop s = true /\ Part000.actionStart s = true /\
   Part000.PressCounter s = 3) /\
  Part000.Blink
    (Scenario.idle000 [(22100, 22100); (22200, 22200)]
       (fst (Part000.loop 22000 22000 s))) = false.
Proof.
  intro s. split; [vm_compute; repeat split|].
  refine (proj1 (proj2 (proj2 (proj2 (proj2
    (stop_cancels_pending_start s 22000 22000
       [(22100, 22100); (22200, 22200)] _)))))).
  vm_compute. reflexivity.
Defined.

(** ** Starting the blinking in part_000 *)

Section Start000.
Import Part000.

Lemma part000_startTimer_tmr counts s :
  tmr (startTimer counts s)
  = mkTimer1 0 (Z.lor 0 (Z.lor (bit WGM12) (Z.lor (bit CS12) (bit CS10)))) 0
      (u16 (7812 * (if counts <=? 0 then 1 else counts) - 1))
      (Z.lor (TIMSK1 (tmr s)) (bit OCIE1A)).
Proof. reflexivity. Qed.

Lemma part000_startTimer_running counts s :
  compare_irq_enabled (tmr (startTimer counts s)) = true /\
  clock_bits (tmr (startTimer counts s)) <> 0.
Proof.
  rewrite part000_startTimer_tmr. unfold compare_irq_enabled, clock_bits.
  cbn [TIMSK1 TCCR1B]. split.
  - rewrite Z.lor_spec.
    change (Z.testbit (bit OCIE1A) OCIE1A) with true. apply orb_true_r.
  - vm_compute. discriminate.
Qed.

(** The start block on a pending start with [Blink] clear and a positive
    counter. *)
Lemma part000_loop_start_fires s :
  actionStart s = true -> Blink s = false -> 0 < PressCounter s ->
  loop_start s
  = (startTimer (PressCounter s) (set_Blink true (set_actionStart false s)),
     [Print "CONFIRMED: Duration "; PrintNum (lastDuration s);
      Print " ms. Blinking every "; PrintNum (PressCounter s);
      Println " seconds."]).
Proof.
  intros Hstart Hblink Hpos. unfold loop_start.
  rewrite whenc_true by exact Hstart.
  unfold andthen, modify, ifc, emit, emit_with.
  cbn [Blink PressCounter set_actionStart lastDuration].
  rewrite Hblink. destruct (Z.ltb_spec 0 (PressCounter s)); [|lia].
  reflexivity.
Qed.

(** Up to eight counts the compare register holds the product: the period
    is [PressCounter] times 7812 ticks (7812 ticks of 64 us are half a
    second). *)
Lemma part000_start_in_range s :
  actionStart s = true -> Blink s = false -> 1 <= PressCounter s <= 8 ->
  let s' := fst (loop_start s) in
  Blink s' = true /\ PressCounter s' = PressCounter s /\
  period_ticks (tmr s') = PressCounter s * 7812 /\
  compare_irq_enabled (tmr s') = true /\ clock_bits (tmr s') <> 0.
Proof.
  intros Hstart Hblink Hrange s'. unfold s'.
  rewrite part000_loop_start_fires by (assumption || lia). cbn [fst].
  split; [reflexivity|]. split; [reflexivity|]. split.
  - rewrite part000_startTimer_tmr. unfold period_ticks. cbn [OCR1A].
    destruct (Z.leb_spec (PressCounter s) 0); [lia|].
    rewrite u16_small; [lia|]. change (2 ^ 16) with 65536. lia.
  - apply part000_startTimer_running.
Qed.

(** From nine counts on the register cannot hold the product: the period
    programmed is shorter than [PressCounter] times 7812 ticks. *)
Lemma part000_start_out_of_range s :
  actionStart s = true -> Blink s = false -> 9 <= PressCounter s ->
  period_ticks (tmr (fst (loop_start s))) < PressCounter s * 7812.
Proof.
  intros Hstart Hblink Hrange.
  rewrite part000_loop_start_fires by (assumption || lia). cbn [fst].
  rewrite part000_startTimer_tmr. unfold period_ticks. cbn [OCR1A].
  pose proof (u16_range (7812 * (if PressCounter s <=? 0 then 1 else PressCounter s) - 1)) as H.
  change (2 ^ 16) with 65536 in H. lia.
Qed.
End Start000.

(** The scenario of the specification: three short presses, then a 2 s
    press.  [Blink] is set and the period is 3 times 7812 ticks. *)
Lemma three_presses_then_medium :
  let s := Part000.buttonISR 22000 false
             (Part000.buttonISR 20000 true
                (Scenario.presses000 3 1000 100 Part000.init)) in
  let s' := fst (Part000.loop 22000 22000 s) in
  Part000.PressCounter s = 3 /\ Part000.Blink s' = true /\
  period_ticks (Part000.tmr s') = 3 * 7812.
Proof. vm_compute. repeat split. Qed.

(** C2 at nine counts.  After nine short presses and a 2 s press, [loop]
    sets [Blink] and announces "Blinking every 9 seconds", but the product
    7812 * 9 - 1 = 70307 does not fit the 16-bit compare register: OCR1A
    holds 4771, the period is 4772 ticks (about 0.3 s) and not 9 * 7812. *)
Theorem nine_counts_wrap_the_compare_register :
  let s := Scenario.nineThenMedium in
  let r := Part000.loop 22000 22000 s in
  (Part000.PressCounter s = 9 /\ Part000.Blink s = false /\
   Part000.actionStart s = true) /\
  Part000.Blink (fst r) = true /\
  Part000.PressCounter (fst r) = 9 /\
  OCR1A (Part000.tmr (fst r)) = 4771 /\
  period_ticks (Part000.tmr (fst r)) = 4772 /\
  period_ticks (Part000.tmr (fst r)) <> 9 * 7812 /\
  snd r = [Print "CONFIRMED: Duration "; PrintNum 2000;
           Print " ms. Blinking every "; PrintNum 9; Println " seconds."].
Proof. vm_compute. repeat split; discriminate. Qed.

(** ** The blink invariants *)

Section Blink000.
Import Part000 Invariant.










End Blink000.

Section BlinkRoni.
Import RoniIsr Invariant.








(** The start block runs [startTimer] only on a positive counter. *)
Lemma roniisr_loop_start_cases s :
  fst (loop_start s)
  = if actionStart s
    then if negb (Blink s) && (0 <? PressCounter s)
         then set_Blink true
                (startTimer (PressCounter s)
                   (set_ledPin false (set_actionStart false s)))
         else set_actionStart false s
    else s.
Proof.
  unfold loop_start, whenc, ifc. destruct (actionStart s); [|reflexivity].
  unfold andthen, modify, skip, emit, emit_with.
  cbn [Blink PressCounter set_actionStart].
  destruct (negb (Blink s) && (0 <? PressCounter s)); reflexivity.
Qed.



End BlinkRoni.

Section StartMain.
Import MainCpp.


Lemma maincpp_startBlinking_runs count m :
  count <> 0 ->
  clock_bits (tmr (startBlinking count m)) <> 0 /\
  0 < period_ticks (tmr (startBlinking count m)).
Proof.
  intro H. unfold startBlinking.
  destruct (Z.eqb_spec count 0); [contradiction|].
  unfold clock_bits, period_ticks.
  cbn [tmr upd_tmr set_tmr TCCR1B OCR1A set_TCCR1B set_OCR1A]. split.
  - change (Z.lor (bit CS12) (Z.lor (bit CS11) (bit CS10))) with (Z.ones 3).
    change (Z.lor (bit CS12) (bit CS10)) with 5.
    intro E. apply (f_equal (fun z => Z.testbit z 0)) in E.
    rewrite Z.land_spec, Z.lor_spec in E.
    change (Z.testbit 5 0) with true in E.
    change (Z.testbit (Z.ones 3) 0) with true in E.
    rewrite orb_true_r in E. discriminate E.
  - pose proof (u16_range (Z.quot (s32 (15625 * s16 (count * 500))) 1000 - 1)).
    lia.
Qed.
End StartMain.

(** ** The guarded read of the millisecond counter *)

Section GuardedRead.
Import RoniPoll.

Lemma bytes_reassemble (v : Z) :
  0 <= v < 2 ^ 32 ->
  0 + byte_of 0 v * 2 ^ (8 * 0) + byte_of 1 v * 2 ^ (8 * 1)
    + byte_of 2 v * 2 ^ (8 * 2) + byte_of 3 v * 2 ^ (8 * 3) = v.
Proof.
  intro H. unfold byte_of.
  change (2 ^ 32) with 4294967296 in H.
  change (2 ^ (8 * 0)) with 1. change (2 ^ (8 * 1)) with 256.
  change (2 ^ (8 * 2)) with 65536. change (2 ^ (8 * 3)) with 16777216.
  change (2 ^ 8) with 256.
  Z.div_mod_to_equations. lia.
Qed.

Lemma tickISR_range m : 0 <= systemMs (tickISR m) < 2 ^ 32.
Proof. apply u32_range. Qed.

(** A load inside the critical section: a compare match can only be
    noted, the counter stays as it is. *)
Lemma run_load_masked k code arrivals v pend t :
  run (LoadByte k :: code) arrivals (mkMachine v false pend) t
  = run code (tl arrivals) (mkMachine v false (hd false arrivals || pend))
      (t + byte_of k v * 2 ^ (8 * k)).
Proof.
  cbn [run]. destruct (hd false arrivals); destruct pend; reflexivity.
Qed.

Lemma at_cli_range arrivals m :
  0 <= systemMs m < 2 ^ 32 -> 0 <= systemMs (at_cli arrivals m) < 2 ^ 32.
Proof.
  intro H. unfold at_cli, compare_match.
  destruct (hd false arrivals); [|exact H].
  destruct (irq_enabled m); [apply tickISR_range | exact H].
Qed.
End GuardedRead.

Section GuardedReadRun.
Import RoniPoll.

Lemma run_cli code arrivals m t :
  run (Cli :: code) arrivals m t
  = run code (tl arrivals)
      (mkMachine (systemMs (at_cli arrivals m)) false
         (tick_pending (at_cli arrivals m))) t.
Proof. reflexivity. Qed.

Lemma run_sei_masked arrivals v pend t :
  run [Sei] arrivals (mkMachine v false pend) t
  = (if hd false arrivals || pend
     then tickISR (mkMachine v true false) else mkMachine v true false, t).
Proof. cbn [run]. destruct (hd false arrivals); destruct pend; reflexivity. Qed.

(** What [getSystemMs] returns and leaves behind, for any arrivals. *)
Lemma getSystemMs_run arrivals m :
  0 <= systemMs m < 2 ^ 32 ->
  exists pend : bool,
    getSystemMs arrivals m
    = (if pend
       then tickISR (mkMachine (systemMs (at_cli arrivals m)) true false)
       else mkMachine (systemMs (at_cli arrivals m)) true false,
       systemMs (at_cli arrivals m)).
Proof.
  intro H. unfold getSystemMs.
  rewrite run_cli, !run_load_masked, run_sei_masked.
  rewrite (bytes_reassemble _ (at_cli_range arrivals m H)).
  eexists. reflexivity.
Qed.
End GuardedReadRun.

(** C9.  [getSystemMs] on a machine whose Timer2 compare matches arrive at
    any points chosen by [arrivals]: the value returned is the value the
    counter has when [noInterrupts()] executes, that is the counter before
    the call or one more; the four byte loads all see this value, since a
    match inside the guarded section is only noted and served after
    [interrupts()].  Afterwards the interrupts are on and no tick is left
    pending.  The main flow of the polling sketch reads the counter through
    this function only: one pass of [loop] works on that value. *)
Theorem getSystemMs_atomic
    (arrivals : list bool) (m : RoniPoll.machine) (p : RoniPoll.state)
    (l1 l2 : bool)
    (Hrange : 0 <= RoniPoll.systemMs m < 2 ^ 32) :
  let m0 := RoniPoll.at_cli arrivals m in
  let r := RoniPoll.getSystemMs arrivals m in
  snd r = RoniPoll.systemMs m0 /\
  (snd r = RoniPoll.systemMs m \/ snd r = u32 (RoniPoll.systemMs m + 1)) /\
  (RoniPoll.systemMs (fst r) = snd r \/
   RoniPoll.systemMs (fst r) = u32 (snd r + 1)) /\
  RoniPoll.irq_enabled (fst r) = true /\
  RoniPoll.tick_pending (fst r) = false /\
  RoniPoll.loop arrivals l1 l2 (m, p)
  = ((fst r, fst (RoniPoll.loop_body (RoniPoll.systemMs m0) l1 l2 p)),
     snd (RoniPoll.loop_body (RoniPoll.systemMs m0) l1 l2 p)).
Proof.
  intros m0 r.
  destruct (getSystemMs_run arrivals m Hrange) as [pend E].
  fold m0 in E. fold r in E.
  assert (Esnd : snd r = RoniPoll.systemMs m0) by (rewrite E; reflexivity).
  split; [exact Esnd|]. split.
  { rewrite Esnd. unfold m0, RoniPoll.at_cli, RoniPoll.compare_match.
    destruct (hd false arrivals); [|left; reflexivity].
    destruct (RoniPoll.irq_enabled m); [right | left]; reflexivity. }
  split.
  { rewrite Esnd, E. destruct pend; [right | left]; reflexivity. }
  split; [rewrite E; destruct pend; reflexivity|].
  split; [rewrite E; destruct pend; reflexivity|].
  unfold RoniPoll.loop. cbn [fst snd]. fold r. rewrite E.
  destruct (RoniPoll.loop_body (RoniPoll.systemMs m0) l1 l2 p). reflexivity.
Qed.

(** The counter at 0x0000FFFF, a tick between the second and the third
    load: the guarded read returns 0xFFFF and the tick is served after it. *)
Lemma getSystemMs_atomic_witness :
  snd (RoniPoll.getSystemMs [false; false; false; true]
         (RoniPoll.mkMachine 0xFFFF true false)) = 0xFFFF /\
  RoniPoll.systemMs
    (fst (RoniPoll.getSystemMs [false; false; false; true]
            (RoniPoll.mkMachine 0xFFFF true false))) = 0x10000.
Proof.
  pose proof (getSystemMs_atomic [false; false; false; true]
                (RoniPoll.mkMachine 0xFFFF true false) RoniPoll.init true true
                ltac:(cbn; lia)) as H.
  cbv zeta in H. destruct H as [H1 _].
  split; [rewrite H1; reflexivity | reflexivity].
Defined.

(** Without the guard the same tick tears the copy: the low bytes are those
    of 0x0000FFFF, the high bytes those of 0x00010000, and the result
    0x0001FFFF is a value the counter never held. *)
Lemma unguarded_read_can_tear :
  let m := RoniPoll.mkMachine 0xFFFF true false in
  let r := RoniPoll.unguarded_read [false; false; true] m in
  snd r = 0x1FFFF /\ RoniPoll.systemMs (fst r) = 0x10000 /\
  snd r <> RoniPoll.systemMs m /\ snd r <> RoniPoll.systemMs (fst r).
Proof. vm_compute. repeat split; discriminate. Qed.

(** * Further properties of the sketches *)

(** ** Flags between the handler and [loop] *)

Ltac split_ifs :=
  repeat match goal with
  | |- context [if ?b then _ else _] => destruct b eqn:?; cbn in *
  end.

Section Flags000.
Import Part000.

Lemma part000_loop_flags t1 t2 s :
  actionShort (fst (loop t1 t2 s)) = false /\
  actionStart (fst (loop t1 t2 s)) = false /\
  actionStop (fst (loop t1 t2 s)) = false.
Proof.
  destruct s as [pc pt li ld ash ast asp bl fb lf lp tm].
  unfold loop, loop_stop, loop_short, loop_flash, loop_start,
    whenc, ifc, andthen, modify, emit, emit_with, skip.
  cbn -[sub32 startTimer]. destruct asp, ash, ast; cbn -[sub32 startTimer];
    split_ifs; repeat split; reflexivity.
Qed.

Lemma part000_isr_flags now level s :
  let s' := buttonISR now level s in
  (actionShort s = true -> actionShort s' = true) /\
  (actionStart s = true -> actionStart s' = true) /\
  (actionStop s = true -> actionStop s' = true) /\
  ((actionShort s' = actionShort s /\ actionStart s' = actionStart s) \/
   (actionShort s' = actionShort s /\ actionStop s' = actionStop s) \/
   (actionStart s' = actionStart s /\ actionStop s' = actionStop s)) /\
  (PressCounter s' = PressCounter s \/
   (PressCounter s' = s16 (PressCounter s + 1) /\ actionShort s' = true /\
    Blink s = false)).
Proof.
  destruct s as [pc pt li ld ash ast asp bl fb lf lp tm].
  unfold buttonISR. cbn -[sub32 classify s16].
  destruct (_ <? DEBOUNCE_TIME); [cbn; tauto|].
  destruct level; [cbn; tauto|].
  destruct (classify _); [destruct bl|..]; cbn -[s16]; tauto.
Qed.
End Flags000.

Section FlagsRoni.
Import RoniIsr.

Lemma roniisr_loop_flags t1 t2 s :
  actionShort (fst (loop t1 t2 s)) = false /\
  actionStart (fst (loop t1 t2 s)) = false /\
  actionStop (fst (loop t1 t2 s)) = false.
Proof.
  destruct s as [pc pt li ash ast asp bl lf fb lp tm].
  unfold loop, loop_stop, loop_short, loop_flash, loop_start,
    whenc, ifc, andthen, modify, emit, emit_with, skip.
  cbn -[sub32 startTimer]. destruct asp, ash, ast; cbn -[sub32 startTimer];
    split_ifs; repeat split; reflexivity.
Qed.

Lemma roniisr_isr_flags now level s :
  let s' := buttonISR now level s in
  (actionShort s = true -> actionShort s' = true) /\
  (actionStart s = true -> actionStart s' = true) /\
  (actionStop s = true -> actionStop s' = true) /\
  ((actionShort s' = actionShort s /\ actionStart s' = actionStart s) \/
   (actionShort s' = actionShort s /\ actionStop s' = actionStop s) \/
   (actionStart s' = actionStart s /\ actionStop s' = actionStop s)) /\
  (PressCounter s' = PressCounter s \/
   (PressCounter s' = s16 (PressCounter s + 1) /\ actionShort s' = true /\
    Blink s = false)).
Proof.
  destruct s as [pc pt li ash ast asp bl lf fb lp tm].
  unfold buttonISR. cbn -[sub32 classify s16].
  destruct (_ <? DEBOUNCE_TIME); [cbn; tauto|].
  destruct level; [cbn; tauto|].
  destruct (classify _); [destruct bl|..]; cbn -[s16]; tauto.
Qed.
End FlagsRoni.

(** X1.  One pass of [loop] consumes every pending flag: whatever was
    pending before, none of [actionShort], [actionStart], [actionStop] is
    set afterwards, in part_000 and in the interrupt sketch of RoniMain.cpp.
    (The handler is not run inside the pass.) *)
Theorem loop_consumes_every_flag
    (s : Part000.state) (r : RoniIsr.state) (t1 t2 : Z) :
  (Part000.actionShort (fst (Part000.loop t1 t2 s)) = false /\
   Part000.actionStart (fst (Part000.loop t1 t2 s)) = false /\
   Part000.actionStop (fst (Part000.loop t1 t2 s)) = false) /\
  (RoniIsr.actionShort (fst (RoniIsr.loop t1 t2 r)) = false /\
   RoniIsr.actionStart (fst (RoniIsr.loop t1 t2 r)) = false /\
   RoniIsr.actionStop (fst (RoniIsr.loop t1 t2 r)) = false).
Proof. split; [apply part000_loop_flags | apply roniisr_loop_flags]. Qed.

(** X2.  The button handler only ever raises flags: a flag that is set stays
    set, at most one of the three flags changes in a call, and the counter
    changes only by one (as a 16-bit [int]), only with [Blink] clear and only
    together with [actionShort] being set.  Both in part_000 and in
    RoniMain.cpp. *)
Theorem handler_only_raises_flags
    (s : Part000.state) (r : RoniIsr.state) (now : Z) (level : bool) :
  let s' := Part000.buttonISR now level s in
  let r' := RoniIsr.buttonISR now level r in
  ((Part000.actionShort s = true -> Part000.actionShort s' = true) /\
   (Part000.actionStart s = true -> Part000.actionStart s' = true) /\
   (Part000.actionStop s = true -> Part000.actionStop s' = true) /\
   ((Part000.actionShort s' = Part000.actionShort s /\
     Part000.actionStart s' = Part000.actionStart s) \/
    (Part000.actionShort s' = Part000.actionShort s /\
     Part000.actionStop s' = Part000.actionStop s) \/
    (Part000.actionStart s' = Part000.actionStart s /\
     Part000.actionStop s' = Part000.actionStop s)) /\
   (Part000.PressCounter s' = Part000.PressCounter s \/
    (Part000.PressCounter s' = s16 (Part000.PressCounter s + 1) /\
     Part000.actionShort s' = true /\ Part000.Blink s = false))) /\
  ((RoniIsr.actionShort r = true -> RoniIsr.actionShort r' = true) /\
   (RoniIsr.actionStart r = true -> RoniIsr.actionStart r' = true) /\
   (RoniIsr.actionStop r = true -> RoniIsr.actionStop r' = true) /\
   ((RoniIsr.actionShort r' = RoniIsr.actionShort r /\
     RoniIsr.actionStart r' = RoniIsr.actionStart r) \/
    (RoniIsr.actionShort r' = RoniIsr.actionShort r /\
     RoniIsr.actionStop r' = RoniIsr.actionStop r) \/
    (RoniIsr.actionStart r' = RoniIsr.actionStart r /\
     RoniIsr.actionStop r' = RoniIsr.actionStop r)) /\
   (RoniIsr.PressCounter r' = RoniIsr.PressCounter r \/
    (RoniIsr.PressCounter r' = s16 (RoniIsr.PressCounter r + 1) /\
     RoniIsr.actionShort r' = true /\ RoniIsr.Blink r = false))).
Proof.
  split; [apply part000_isr_flags | apply roniisr_isr_flags].
Qed.

(** A stop that is pending when a short press is released stays pending. *)
Lemma handler_only_raises_flags_witness :
  Part000.actionStop
    (Part000.buttonISR 9000 false
       (Part000.buttonISR 8900 true
          (Part000.buttonISR 5000 false Part000.init))) = true.
Proof.
  pose proof (handler_only_raises_flags
                (Part000.buttonISR 8900 true
                   (Part000.buttonISR 5000 false Part000.init))
                RoniIsr.init 9000 false) as H.
  cbv zeta in H. destruct H as [(_ & _ & Hstop & _) _].
  apply Hstop. reflexivity.
Defined.

(** ** Bursts of bounces *)

Lemma part000_burst_rejected evs : forall s t0,
  Part000.lastISRTime s = t0 ->
  Forall (fun e => sub32 (fst e) t0 < Part000.DEBOUNCE_TIME) evs ->
  Runs.isr000 evs s = s.
Proof.
  induction evs as [| [t l] evs IH]; intros s t0 E F; [reflexivity|].
  inversion F as [| e es Hhd Htl]; subst. cbn [Runs.isr000].
  rewrite part000_isr_rejected by exact Hhd.
  apply (IH s (Part000.lastISRTime s)); [reflexivity | exact Htl].
Qed.

Lemma roniisr_burst_rejected evs : forall s t0,
  RoniIsr.lastISRTime s = t0 ->
  Forall (fun e => sub32 (fst e) t0 < RoniIsr.DEBOUNCE_TIME) evs ->
  Runs.isrRoni evs s = s.
Proof.
  induction evs as [| [t l] evs IH]; intros s t0 E F; [reflexivity|].
  inversion F as [| e es Hhd Htl]; subst. cbn [Runs.isrRoni].
  rewrite roniisr_isr_rejected by exact Hhd.
  apply (IH s (RoniIsr.lastISRTime s)); [reflexivity | exact Htl].
Qed.

(** X3.  After a transition accepted at [t0], a burst of any length whose
    readings all lie less than 50 ms after [t0] is dropped as a whole: the
    state, with the timestamp [t0], is as after the accepted transition.
    The window is counted from the accepted transition, not from the last
    bounce.  Both in part_000 and in RoniMain.cpp. *)
Theorem burst_within_window_is_dropped
    (s : Part000.state) (r : RoniIsr.state) (t0 : Z) (l0 : bool)
    (evs : list (Z * bool))
    (Hs : Part000.DEBOUNCE_TIME <= sub32 t0 (Part000.lastISRTime s))
    (Hr : RoniIsr.DEBOUNCE_TIME <= sub32 t0 (RoniIsr.lastISRTime r))
    (Hburst : Forall (fun e => sub32 (fst e) t0 < 50) evs) :
  Runs.isr000 evs (Part000.buttonISR t0 l0 s) = Part000.buttonISR t0 l0 s /\
  Runs.isrRoni evs (RoniIsr.buttonISR t0 l0 r) = RoniIsr.buttonISR t0 l0 r.
Proof.
  split.
  - apply (part000_burst_rejected evs _ t0); [|exact Hburst].
    apply part000_isr_stamp. exact Hs.
  - apply (roniisr_burst_rejected evs _ t0); [|exact Hburst].
    apply roniisr_isr_stamp. exact Hr.
Qed.

(** A press at 1000 ms with bounces at 1003, 1010, 1031 and 1049 ms. *)
Lemma burst_within_window_is_dropped_witness :
  Runs.isr000 [(1003, false); (1010, true); (1031, false); (1049, true)]
    (Part000.buttonISR 1000 true Part000.init)
  = Part000.buttonISR 1000 true Part000.init.
Proof.
  apply (burst_within_window_is_dropped Part000.init RoniIsr.init 1000 true
           [(1003, false); (1010, true); (1031, false); (1049, true)]).
  - vm_compute. discriminate.
  - vm_compute. discriminate.
  - repeat constructor.
Defined.

(** ** Counting presses *)

Lemma s16_idem_add (a b : Z) : s16 (s16 a + b) = s16 (a + b).
Proof.
  unfold s16.
  replace ((a + 2 ^ 15) mod 2 ^ 16 - 2 ^ 15 + b + 2 ^ 15)
    with ((a + 2 ^ 15) mod 2 ^ 16 + b) by lia.
  rewrite Zplus_mod_idemp_l. f_equal. f_equal. lia.
Qed.

Lemma s16_small (a : Z) : - 2 ^ 15 <= a < 2 ^ 15 -> s16 a = a.
Proof.
  intro H. unfold s16. rewrite Z.mod_small; [lia|].
  change (2 ^ 15) with 32768 in *. change (2 ^ 16) with 65536. lia.
Qed.

Lemma u8_idem_add (a b : Z) : u8 (u8 a + b) = u8 (a + b).
Proof. unfold u8. apply Zplus_mod_idemp_l. Qed.

Lemma sub32_same (x : Z) : sub32 x x = 0.
Proof. unfold sub32, u32. rewrite Z.sub_diag. reflexivity. Qed.

Section Count000.
Import Part000.

(** One short press and the pass of [loop] that follows, in full. *)
Lemma part000_press_short t d s :
  Blink s = false -> actionStart s = false -> actionStop s = false ->
  DEBOUNCE_TIME <= sub32 (u32 t) (lastISRTime s) ->
  50 <= d < 1500 ->
  Scenario.press000 t d s
  = mkState (s16 (PressCounter s + 1)) (u32 t) (u32 (t + d)) d false false false
      false true (u32 (t + d)) true (tmr s).
Proof.
  intros Hb Hst Hsp Hacc Hd.
  assert (E : sub32 (u32 (t + d)) (u32 t) = d).
  { rewrite sub32_elapsed; [lia|]. change (2 ^ 32) with 4294967296. lia. }
  unfold Scenario.press000.
  rewrite (part000_isr_press _ _ Hacc).
  rewrite part000_isr_release.
  2:{ cbn [lastISRTime set_pressTime set_lastISRTime]. rewrite E.
      unfold DEBOUNCE_TIME. lia. }
  cbn [pressTime set_pressTime set_lastISRTime]. rewrite E.
  assert (C : classify d = Short) by (apply part000_classify_spec; lia).
  rewrite C. cbv zeta.
  destruct s as [pc pt li ld ash ast asp bl fb lf lp tm].
  cbn in Hb, Hst, Hsp. subst bl ast asp.
  unfold loop, loop_stop, loop_short, loop_flash, loop_start,
    whenc, ifc, andthen, modify, emit, emit_with, skip.
  cbn -[sub32 u32 s16]. rewrite sub32_same. cbn -[u32 s16]. reflexivity.
Qed.

Lemma part000_presses_short n : forall t d s,
  Blink s = false -> actionStart s = false -> actionStop s = false ->
  DEBOUNCE_TIME <= sub32 (u32 t) (lastISRTime s) ->
  50 <= d <= 950 ->
  - 2 ^ 15 <= PressCounter s < 2 ^ 15 ->
  let s' := Scenario.presses000 n t d s in
  PressCounter s' = s16 (PressCounter s + Z.of_nat n) /\
  Blink s' = false /\ tmr s' = tmr s.
Proof.
  induction n as [| n IH]; intros t d s Hb Hst Hsp Hacc Hd Hpc.
  - cbn [Scenario.presses000]. rewrite Z.add_0_r, s16_small by exact Hpc.
    repeat split. exact Hb.
  - cbn [Scenario.presses000].
    rewrite part000_press_short by (assumption || lia).
    set (s1 := mkState _ _ _ _ _ _ _ _ _ _ _ _).
    destruct (IH (t + 1000) d s1) as (A & B & C); try reflexivity.
    + cbn [lastISRTime s1]. rewrite sub32_elapsed.
      * unfold DEBOUNCE_TIME. lia.
      * change (2 ^ 32) with 4294967296. lia.
    + exact Hd.
    + cbn [PressCounter s1]. unfold s16.
      pose proof (Z.mod_pos_bound (PressCounter s + 1 + 2 ^ 15) (2 ^ 16) eq_refl).
      change (2 ^ 15) with 32768 in *. change (2 ^ 16) with 65536 in *. lia.
    + cbv zeta. rewrite A, B, C. cbn [PressCounter tmr s1].
      rewrite s16_idem_add. repeat split. f_equal. lia.
Qed.
End Count000.

(** X4.  part_000 counts presses: starting with [Blink] clear and no start
    or stop pending, [n] presses of [d] ms (50 to 950 ms, one every second,
    the first one accepted by the debounce), each followed by a pass of
    [loop], leave the counter at its old value plus [n], as a 16-bit [int];
    [Blink] stays clear and the timer registers are not touched. *)
Theorem presses_are_counted
    (n : nat) (t d : Z) (s : Part000.state)
    (Hblink : Part000.Blink s = false)
    (Hstart : Part000.actionStart s = false)
    (Hstop : Part000.actionStop s = false)
    (Hacc : Part000.DEBOUNCE_TIME <= sub32 (u32 t) (Part000.lastISRTime s))
    (Hd : 50 <= d <= 950)
    (Hint : - 2 ^ 15 <= Part000.PressCounter s < 2 ^ 15) :
  let s' := Scenario.presses000 n t d s in
  Part000.PressCounter s' = s16 (Part000.PressCounter s + Z.of_nat n) /\
  (Part000.PressCounter s + Z.of_nat n < 2 ^ 15 ->
   Part000.PressCounter s' = Part000.PressCounter s + Z.of_nat n) /\
  Part000.Blink s' = false /\ Part000.tmr s' = Part000.tmr s.
Proof.
  intro s'.
  destruct (part000_presses_short n t d s Hblink Hstart Hstop Hacc Hd Hint)
    as (A & B & C).
  fold s' in A, B, C. split; [exact A|]. split; [|split; assumption].
  intro Hfit. rewrite A. apply s16_small. lia.
Qed.

(** Five presses of 100 ms on the freshly started system. *)
Lemma presses_are_counted_witness :
  Part000.PressCounter (Scenario.presses000 5 1000 100 Part000.init) = 5.
Proof.
  refine (proj1 (proj2
    (presses_are_counted 5 1000 100 Part000.init eq_refl eq_refl eq_refl _ _ _)) _).
  - vm_compute. discriminate.
  - lia.
  - cbn. lia.
  - cbn. lia.
Defined.

Section CountMain.
Import MainCpp.

Lemma maincpp_press_short t d m :
  0 <= d < 1500 ->
  Scenario.pressMain t d m
  = set_shortPressCount (u8 (shortPressCount m + 1)) (set_pressStartTime (u32 t) m).
Proof.
  intro Hd. unfold Scenario.pressMain, handleButtonISR.
  cbn [pressStartTime set_pressStartTime shortPressCount].
  rewrite sub32_elapsed by (change (2 ^ 32) with 4294967296; lia).
  replace (t + d - t) with d by lia.
  assert (C : classify d = Short) by (apply maincpp_classify_spec; lia).
  rewrite C. reflexivity.
Qed.

Lemma maincpp_presses_short n : forall t d m,
  0 <= d < 1500 -> 0 <= shortPressCount m < 2 ^ 8 ->
  let m' := Runs.pressesMain n t d m in
  shortPressCount m' = u8 (shortPressCount m + Z.of_nat n) /\
  tmr m' = tmr m /\ ledPin m' = ledPin m.
Proof.
  induction n as [| n IH]; intros t d m Hd Hc.
  - cbn [Runs.pressesMain]. rewrite Z.add_0_r. unfold u8.
    rewrite Z.mod_small by exact Hc. repeat split.
  - cbn [Runs.pressesMain]. rewrite maincpp_press_short by exact Hd.
    set (m1 := set_shortPressCount _ _).
    destruct (IH (t + 1000) d m1 Hd) as (A & B & C).
    + cbn [shortPressCount m1 set_shortPressCount]. apply Z.mod_pos_bound. reflexivity.
    + cbv zeta. rewrite A, B, C. cbn [shortPressCount m1 set_shortPressCount].
      rewrite u8_idem_add. repeat split. f_equal. lia.
Qed.
End CountMain.

(** X5.  main.cpp counts presses modulo 256: [n] presses shorter than
    1500 ms leave the 8-bit counter at its old value plus [n] modulo 256,
    whether the timer runs or not, and touch neither the timer registers nor
    the LED; 256 further presses bring the counter back to where it was. *)
Theorem presses_are_counted_modulo_256
    (n : nat) (t d : Z) (m : MainCpp.state)
    (Hd : 0 <= d < 1500)
    (Hbyte : 0 <= MainCpp.shortPressCount m < 2 ^ 8) :
  let m' := Runs.pressesMain n t d m in
  MainCpp.shortPressCount m' = u8 (MainCpp.shortPressCount m + Z.of_nat n) /\
  MainCpp.tmr m' = MainCpp.tmr m /\ MainCpp.ledPin m' = MainCpp.ledPin m /\
  MainCpp.shortPressCount (Runs.pressesMain (n + 256) t d m)
  = MainCpp.shortPressCount m'.
Proof.
  intro m'.
  destruct (maincpp_presses_short n t d m Hd Hbyte) as (A & B & C).
  fold m' in A, B, C. repeat split; try assumption.
  destruct (maincpp_presses_short (n + 256) t d m Hd Hbyte) as (A' & _).
  cbv zeta in A'. rewrite A', A. unfold u8.
  rewrite Nat2Z.inj_add. change (Z.of_nat 256) with (1 * 2 ^ 8).
  rewrite Z.add_assoc. apply Z_mod_plus_full.
Qed.

(** Three presses of 100 ms while main.cpp blinks. *)
Lemma presses_are_counted_modulo_256_witness :
  MainCpp.shortPressCount (Runs.pressesMain 3 30000 100 Scenario.mainBlinking3) = 6.
Proof.
  refine (eq_trans (proj1
    (presses_are_counted_modulo_256 3 30000 100 Scenario.mainBlinking3 _ _)) _).
  - lia.
  - vm_compute. split; [discriminate | reflexivity].
  - reflexivity.
Defined.

(** ** A start while the system blinks, and restarts *)

Lemma part000_start_while_blinking s :
  Part000.actionStart s = true -> Part000.Blink s = true ->
  Part000.loop_start s = (Part000.set_actionStart false s, []).
Proof.
  intros Hst Hb. unfold Part000.loop_start. rewrite whenc_true by exact Hst.
  unfold andthen, modify, ifc, whenc, ifc, skip.
  cbn [Part000.Blink Part000.PressCounter Part000.set_actionStart].
  rewrite Hb. reflexivity.
Qed.

Lemma roniisr_start_while_blinking s :
  RoniIsr.actionStart s = true -> RoniIsr.Blink s = true ->
  RoniIsr.loop_start s = (RoniIsr.set_actionStart false s, []).
Proof.
  intros Hst Hb. unfold RoniIsr.loop_start. rewrite whenc_true by exact Hst.
  unfold andthen, modify, ifc, whenc, ifc, skip.
  cbn [RoniIsr.Blink RoniIsr.PressCounter RoniIsr.set_actionStart].
  rewrite Hb. reflexivity.
Qed.

(** X6.  A Medium press while the system already blinks is ignored by the
    sketches with flags: the start block of [loop] takes the flag away,
    prints nothing and leaves the counter, [Blink], the LED and the timer
    registers (so the period in force) as they are.  In part_000 and in
    RoniMain.cpp. *)
Theorem start_while_blinking_is_ignored
    (s : Part000.state) (r : RoniIsr.state)
    (Hs_start : Part000.actionStart s = true)
    (Hs_blink : Part000.Blink s = true)
    (Hr_start : RoniIsr.actionStart r = true)
    (Hr_blink : RoniIsr.Blink r = true) :
  Part000.loop_start s = (Part000.set_actionStart false s, []) /\
  RoniIsr.loop_start r = (RoniIsr.set_actionStart false r, []) /\
  (forall t1 t2,
     Part000.actionStop s = false -> Part000.actionShort s = false ->
     Part000.feedbackLedOn s = false ->
     Part000.loop t1 t2 s = (Part000.set_actionStart false s, [])) /\
  (forall t1 t2,
     RoniIsr.actionStop r = false -> RoniIsr.actionShort r = false ->
     RoniIsr.feedbackLedOn r = false ->
     RoniIsr.loop t1 t2 r = (RoniIsr.set_actionStart false r, [])).
Proof.
  pose proof (part000_start_while_blinking s Hs_start Hs_blink) as Es.
  pose proof (roniisr_start_while_blinking r Hr_start Hr_blink) as Er.
  split; [exact Es|]. split; [exact Er|]. split.
  - intros t1 t2 Hstop Hshort Hfb. unfold Part000.loop, andthen.
    rewrite (part000_loop_stop_idle s Hstop).
    unfold Part000.loop_short. rewrite whenc_false by exact Hshort.
    unfold Part000.loop_flash. rewrite whenc_false by (rewrite Hfb; reflexivity).
    rewrite Es. reflexivity.
  - intros t1 t2 Hstop Hshort Hfb. unfold RoniIsr.loop, andthen.
    unfold RoniIsr.loop_stop. rewrite whenc_false by exact Hstop.
    unfold RoniIsr.loop_short. rewrite whenc_false by exact Hshort.
    unfold RoniIsr.loop_flash. rewrite whenc_false by (rewrite Hfb; reflexivity).
    rewrite Er. reflexivity.
Qed.

(** A start raised on a blinking part_000. *)
Lemma start_while_blinking_is_ignored_witness :
  Part000.loop_start (Part000.set_actionStart true (Part000.set_Blink true Part000.init))
  = (Part000.set_Blink true Part000.init, []).
Proof.
  apply (start_while_blinking_is_ignored
           (Part000.set_actionStart true (Part000.set_Blink true Part000.init))
           (RoniIsr.set_actionStart true (RoniIsr.set_Blink true RoniIsr.init))
           eq_refl eq_refl eq_refl eq_refl).
Defined.

Lemma lor_twice (x c : Z) : Z.lor (Z.lor x c) c = Z.lor x c.
Proof. rewrite <- Z.lor_assoc, Z.lor_diag. reflexivity. Qed.

Lemma lor_after_clear (x c : Z) : Z.lor (Z.land x (Z.lnot c)) c = Z.lor x c.
Proof.
  apply Z.bits_inj'. intros n Hn.
  rewrite !Z.lor_spec, Z.land_spec, Z.lnot_spec by exact Hn.
  destruct (Z.testbit x n), (Z.testbit c n); reflexivity.
Qed.

Lemma part000_startTimer_eq n s :
  Part000.startTimer n s
  = Part000.set_tmr
      (mkTimer1 0 (Z.lor 0 (Z.lor (bit WGM12) (Z.lor (bit CS12) (bit CS10)))) 0
         (u16 (7812 * (if n <=? 0 then 1 else n) - 1))
         (Z.lor (TIMSK1 (Part000.tmr s)) (bit OCIE1A))) s.
Proof. destruct s as [pc pt li ld ash ast asp bl fb lf lp [a b c o i]]. reflexivity. Qed.

Lemma part000_startTimer_again n k s :
  Part000.startTimer n (Part000.startTimer k s) = Part000.startTimer n s.
Proof.
  rewrite !part000_startTimer_eq.
  destruct s as [pc pt li ld ash ast asp bl fb lf lp [a b c o i]].
  unfold Part000.set_tmr. cbn [Part000.tmr TIMSK1 Part000.PressCounter
    Part000.pressTime Part000.lastISRTime Part000.lastDuration
    Part000.actionShort Part000.actionStart Part000.actionStop Part000.Blink
    Part000.feedbackLedOn Part000.lastFlashStart Part000.ledPin].
  rewrite lor_twice. reflexivity.
Qed.

Lemma part000_start_after_stop n s :
  Part000.tmr (Part000.startTimer n (Part000.stopTimer s))
  = Part000.tmr (Part000.startTimer n s).
Proof.
  rewrite !part000_startTimer_tmr. f_equal.
  cbn [Part000.stopTimer Part000.tmr Part000.upd_tmr Part000.set_tmr
       Part000.set_ledPin Part000.set_PressCounter Part000.set_Blink
       Part000.set_feedbackLedOn set_TIMSK1 set_TCCR1B set_TCCR1A set_TCNT1
       TIMSK1].
  apply lor_after_clear.
Qed.

Lemma maincpp_startBlinking_eq c m :
  c <> 0 ->
  MainCpp.startBlinking c m
  = MainCpp.set_tmr
      (mkTimer1 (TCCR1A (MainCpp.tmr m))
         (Z.lor (TCCR1B (MainCpp.tmr m)) (Z.lor (bit CS12) (bit CS10)))
         (TCNT1 (MainCpp.tmr m))
         (u16 (Z.quot (MainCpp.s32 (15625 * s16 (c * 500))) 1000 - 1))
         (TIMSK1 (MainCpp.tmr m))) m.
Proof.
  intro H. unfold MainCpp.startBlinking.
  destruct (Z.eqb_spec c 0); [contradiction|].
  destruct m as [pt cnt hp lp [a b k o i]]. reflexivity.
Qed.

Lemma maincpp_startBlinking_again c1 c2 m :
  c2 <> 0 ->
  MainCpp.startBlinking c2 (MainCpp.startBlinking c1 m) = MainCpp.startBlinking c2 m.
Proof.
  intro H. destruct (Z.eqb_spec c1 0) as [-> | H1]; [reflexivity|].
  rewrite (maincpp_startBlinking_eq c2 _ H), (maincpp_startBlinking_eq c1 _ H1),
    (maincpp_startBlinking_eq c2 _ H).
  destruct m as [pt cnt hp lp [a b k o i]].
  unfold MainCpp.set_tmr. cbn [MainCpp.tmr TCCR1A TCCR1B TCNT1 OCR1A TIMSK1
    MainCpp.pressStartTime MainCpp.shortPressCount MainCpp.blinkHalfPeriod
    MainCpp.ledPin].
  rewrite lor_twice. reflexivity.
Qed.

(** X7.  Programming the timer again replaces the earlier programming.
    part_000: [startTimer n] after [startTimer k] is [startTimer n], and
    after [stopTimer] it leaves the same registers as a first start.
    main.cpp, where a Medium press is not guarded by a blink flag:
    [startBlinking] with a non-zero count after an earlier [startBlinking]
    is as if the earlier one had not happened, so the latest Medium press
    decides the period. *)
Theorem latest_start_wins
    (s : Part000.state) (m : MainCpp.state) (n k c1 c2 : Z)
    (Hc2 : c2 <> 0) :
  Part000.startTimer n (Part000.startTimer k s) = Part000.startTimer n s /\
  Part000.tmr (Part000.startTimer n (Part000.stopTimer s))
  = Part000.tmr (Part000.startTimer n s) /\
  MainCpp.startBlinking c2 (MainCpp.startBlinking c1 m) = MainCpp.startBlinking c2 m.
Proof.
  split; [apply part000_startTimer_again|].
  split; [apply part000_start_after_stop|].
  apply maincpp_startBlinking_again. exact Hc2.
Qed.

(** main.cpp blinking on a count of three, then a Medium press on a count
    of five. *)
Lemma latest_start_wins_witness :
  MainCpp.startBlinking 5 (MainCpp.startBlinking 3 MainCpp.init)
  = MainCpp.startBlinking 5 MainCpp.init.
Proof.
  apply (latest_start_wins Part000.init MainCpp.init 1 1 3 5).
  discriminate.
Defined.

(** ** Register widths *)

Lemma fits_land (n x : Z) : 0 <= n -> (0 <= x < 2 ^ n <-> Z.land x (Z.ones n) = x).
Proof.
  intro Hn. rewrite Z.land_ones by exact Hn. split.
  - intro H. now apply Z.mod_small.
  - intro H. rewrite <- H. apply Z.mod_pos_bound. now apply Z.pow_pos_nonneg.
Qed.

Lemma fits_lor (n x c : Z) :
  0 <= n -> 0 <= x < 2 ^ n -> 0 <= c < 2 ^ n -> 0 <= Z.lor x c < 2 ^ n.
Proof.
  intros Hn Hx Hc. apply (fits_land n _ Hn).
  rewrite Z.land_lor_distr_l.
  apply (fits_land n _ Hn) in Hx. apply (fits_land n _ Hn) in Hc.
  rewrite Hx, Hc. reflexivity.
Qed.

Lemma fits_mask (n x c : Z) : 0 <= n -> 0 <= x < 2 ^ n -> 0 <= Z.land x c < 2 ^ n.
Proof.
  intros Hn Hx. apply (fits_land n _ Hn).
  apply (fits_land n _ Hn) in Hx.
  rewrite <- Z.land_assoc, (Z.land_comm c), Z.land_assoc, Hx. reflexivity.
Qed.

Section Widths.
Import Runs.

Lemma regs_ok_reset : regs_ok timer1_reset.
Proof. unfold regs_ok. cbn. lia. Qed.

Lemma part000_startTimer_regs n s :
  regs_ok (Part000.tmr s) -> regs_ok (Part000.tmr (Part000.startTimer n s)).
Proof.
  intros (A & B & C & D & E). rewrite part000_startTimer_tmr.
  unfold regs_ok. cbn [TCCR1A TCCR1B TIMSK1 TCNT1 OCR1A].
  split; [cbn; lia|]. split; [cbn; lia|].
  split; [apply fits_lor; [lia | exact C | cbn; lia]|].
  split; [cbn; lia | apply u16_range].
Qed.

Lemma part000_stopTimer_regs s :
  regs_ok (Part000.tmr s) -> regs_ok (Part000.tmr (Part000.stopTimer s)).
Proof.
  intros (A & B & C & D & E). unfold regs_ok.
  cbn [Part000.stopTimer Part000.tmr Part000.upd_tmr Part000.set_tmr
       Part000.set_ledPin Part000.set_PressCounter Part000.set_Blink
       Part000.set_feedbackLedOn set_TIMSK1 set_TCCR1B set_TCCR1A set_TCNT1
       TCCR1A TCCR1B TIMSK1 TCNT1 OCR1A].
  split; [cbn; lia|]. split; [cbn; lia|].
  split; [apply fits_mask; [lia | exact C]|].
  split; [cbn; lia | exact E].
Qed.

Lemma part000_buttonISR_tmr now level s :
  Part000.tmr (Part000.buttonISR now level s) = Part000.tmr s.
Proof.
  unfold Part000.buttonISR. destruct (_ <? _); [reflexivity|].
  destruct level; [reflexivity|]. cbv zeta.
  destruct (Part000.classify _); try reflexivity.
  destruct (negb _); reflexivity.
Qed.

Lemma part000_loop_regs t1 t2 s :
  regs_ok (Part000.tmr s) -> regs_ok (Part000.tmr (fst (Part000.loop t1 t2 s))).
Proof.
  intro R. rewrite part000_loop_fst.
  assert (R0 : regs_ok (Part000.tmr (fst (Part000.loop_stop s)))).
  { destruct (Part000.actionStop s) eqn:E.
    - rewrite part000_loop_stop_fires by exact E. cbn [fst].
      apply part000_stopTimer_regs. exact R.
    - rewrite part000_loop_stop_idle by exact E. exact R. }
  destruct (part000_loop_short_frame t1 (fst (Part000.loop_stop s)))
    as (_ & _ & _ & _ & A).
  destruct (part000_loop_flash_frame t2
              (fst (Part000.loop_short t1 (fst (Part000.loop_stop s)))))
    as (_ & _ & _ & _ & B).
  set (s2 := fst (Part000.loop_flash t2 _)) in *.
  assert (R2 : regs_ok (Part000.tmr s2)) by (rewrite B, A; exact R0).
  clearbody s2.
  destruct (Part000.actionStart s2) eqn:E.
  2:{ rewrite part000_loop_start_idle by exact E. exact R2. }
  unfold Part000.loop_start. rewrite whenc_true by exact E.
  unfold andthen, modify, ifc, whenc, ifc, skip, emit, emit_with.
  cbn [Part000.Blink Part000.PressCounter Part000.set_actionStart].
  destruct (negb (Part000.Blink s2) && (0 <? Part000.PressCounter s2)).
  - cbn [fst]. apply part000_startTimer_regs. exact R2.
  - destruct (negb (Part000.Blink s2) && (Part000.PressCounter s2 =? 0)); exact R2.
Qed.

Lemma maincpp_startBlinking_regs c m :
  regs_ok (MainCpp.tmr m) -> regs_ok (MainCpp.tmr (MainCpp.startBlinking c m)).
Proof.
  intros R. unfold MainCpp.startBlinking.
  destruct (c =? 0); [exact R|].
  destruct R as (A & B & C & D & E). unfold regs_ok.
  cbn [MainCpp.tmr MainCpp.upd_tmr MainCpp.set_tmr set_TCCR1B set_OCR1A
       TCCR1A TCCR1B TIMSK1 TCNT1 OCR1A].
  split; [exact A|]. split; [apply fits_lor; [lia | exact B | cbn; lia]|].
  split; [exact C|]. split; [exact D | apply u16_range].
Qed.

Lemma maincpp_stopSystem_regs m :
  regs_ok (MainCpp.tmr m) -> regs_ok (MainCpp.tmr (MainCpp.stopSystem m)).
Proof.
  intros (A & B & C & D & E). unfold regs_ok.
  cbn [MainCpp.stopSystem MainCpp.tmr MainCpp.upd_tmr MainCpp.set_tmr
       MainCpp.set_ledPin MainCpp.set_shortPressCount set_TCCR1B
       TCCR1A TCCR1B TIMSK1 TCNT1 OCR1A].
  split; [exact A|]. split; [apply fits_mask; [lia | exact B]|].
  split; [exact C|]. split; [exact D | exact E].
Qed.

Lemma maincpp_handler_regs now level m :
  regs_ok (MainCpp.tmr m) ->
  regs_ok (MainCpp.tmr (MainCpp.handleButtonISR now level m)).
Proof.
  intro R. unfold MainCpp.handleButtonISR. destruct level; [exact R|].
  destruct (MainCpp.classify _); [exact R | |].
  - apply maincpp_startBlinking_regs. exact R.
  - apply maincpp_stopSystem_regs. exact R.
Qed.
End Widths.

(** X8.  The timer registers always hold values of their width.  They do
    so after reset and after main.cpp's [setup]; and if they do, they still
    do after any call of the button handler, of [startTimer], [stopTimer]
    or a pass of [loop] in part_000, and after any call of the button
    handler of main.cpp (so after [startBlinking] and [stopSystem]): the
    masks written by the code never set a bit above bit 7, and the compare
    value is cut to 16 bits. *)
Theorem registers_keep_their_width
    (s : Part000.state) (m : MainCpp.state) (now t1 t2 n : Z) (level : bool)
    (Hs : Runs.regs_ok (Part000.tmr s)) (Hm : Runs.regs_ok (MainCpp.tmr m)) :
  (Runs.regs_ok (Part000.tmr Part000.init) /\
   Runs.regs_ok (MainCpp.tmr MainCpp.init)) /\
  (Runs.regs_ok (Part000.tmr (Part000.buttonISR now level s)) /\
   Runs.regs_ok (Part000.tmr (Part000.timerISR s)) /\
   Runs.regs_ok (Part000.tmr (Part000.startTimer n s)) /\
   Runs.regs_ok (Part000.tmr (Part000.stopTimer s)) /\
   Runs.regs_ok (Part000.tmr (fst (Part000.loop t1 t2 s)))) /\
  (Runs.regs_ok (MainCpp.tmr (MainCpp.handleButtonISR now level m)) /\
   Runs.regs_ok (MainCpp.tmr (MainCpp.timerISR m)) /\
   Runs.regs_ok (MainCpp.tmr (MainCpp.startBlinking n m)) /\
   Runs.regs_ok (MainCpp.tmr (MainCpp.stopSystem m))).
Proof.
  split; [split; [apply regs_ok_reset | unfold Runs.regs_ok; cbn; lia]|].
  split.
  - split; [rewrite part000_buttonISR_tmr; exact Hs|].
    split; [unfold Part000.timerISR; destruct (Part000.Blink s); exact Hs|].
    split; [apply part000_startTimer_regs, Hs|].
    split; [apply part000_stopTimer_regs, Hs | apply part000_loop_regs, Hs].
  - split; [apply maincpp_handler_regs, Hm|].
    split; [exact Hm|].
    split; [apply maincpp_startBlinking_regs, Hm | apply maincpp_stopSystem_regs, Hm].
Qed.

(** main.cpp after [setup] and a 2 s press on a count of three. *)
Lemma registers_keep_their_width_witness :
  Runs.regs_ok (MainCpp.tmr (MainCpp.startBlinking 3 MainCpp.init)).
Proof.
  refine (proj1 (proj2 (proj2 (proj2 (proj2
    (registers_keep_their_width Part000.init MainCpp.init 0 0 0 3 true _ _)))))).
  - unfold Runs.regs_ok. cbn. lia.
  - unfold Runs.regs_ok. cbn. lia.
Defined.

(** ** Passes of [loop] with nothing to do, and the feedback flash *)

Lemma part000_quiet_pass t1 t2 s :
  Runs.quiet000 s ->
  Part000.loop t1 t2 s
  = (if Part000.feedbackLedOn s && (200 <=? sub32 t2 (Part000.lastFlashStart s))
     then Part000.set_feedbackLedOn false (Part000.set_ledPin false s) else s, []).
Proof.
  intros (Hshort & Hstart & Hstop). unfold Part000.loop, andthen.
  rewrite (part000_loop_stop_idle s Hstop).
  unfold Part000.loop_short. rewrite whenc_false by exact Hshort.
  unfold Part000.loop_flash, whenc, ifc.
  destruct (Part000.feedbackLedOn s && _).
  - cbn [andthen modify]. unfold andthen, modify.
    rewrite part000_loop_start_idle by exact Hstart. reflexivity.
  - unfold skip. rewrite part000_loop_start_idle by exact Hstart. reflexivity.
Qed.

(** X9.  part_000, a pass of [loop] with no flag pending.  If no feedback
    flash is on, or one is on for less than 200 ms (unsigned difference of
    the reading of [millis()] and [lastFlashStart]), the pass changes
    nothing and prints nothing.  If a flash is on for 200 ms or more, the
    pass switches the LED off and clears [feedbackLedOn], and does nothing
    else.  A flash started by the short-press block at reading [t] is
    therefore ended by the first pass whose reading is 200 ms or more after
    [t]. *)
Theorem quiet_pass_and_flash_timeout
    (s : Part000.state) (t1 t2 : Z)
    (Hquiet : Runs.quiet000 s) :
  (Part000.feedbackLedOn s = false -> Part000.loop t1 t2 s = (s, [])) /\
  (sub32 t2 (Part000.lastFlashStart s) < 200 -> Part000.loop t1 t2 s = (s, [])) /\
  (Part000.feedbackLedOn s = true ->
   200 <= sub32 t2 (Part000.lastFlashStart s) ->
   Part000.loop t1 t2 s
   = (Part000.set_feedbackLedOn false (Part000.set_ledPin false s), [])) /\
  (forall t,
     let s1 := fst (Part000.loop_short t (Part000.set_actionShort true s)) in
     Part000.ledPin s1 = true /\ Part000.feedbackLedOn s1 = true /\
     Runs.quiet000 s1 /\
     (sub32 t2 t < 200 -> Part000.loop t1 t2 s1 = (s1, [])) /\
     (200 <= sub32 t2 t ->
      Part000.ledPin (fst (Part000.loop t1 t2 s1)) = false /\
      Part000.feedbackLedOn (fst (Part000.loop t1 t2 s1)) = false)).
Proof.
  pose proof (part000_quiet_pass t1 t2 s Hquiet) as E.
  split; [intro H; rewrite E, H; reflexivity|].
  split.
  { intro H. rewrite E.
    destruct (Z.leb_spec 200 (sub32 t2 (Part000.lastFlashStart s))); [lia|].
    rewrite andb_false_r. reflexivity. }
  split.
  { intros Hon H. rewrite E, Hon.
    destruct (Z.leb_spec 200 (sub32 t2 (Part000.lastFlashStart s))); [|lia].
    reflexivity. }
  intros t s1.
  assert (Es1 : s1 = Part000.set_lastFlashStart t
                       (Part000.set_feedbackLedOn true
                          (Part000.set_ledPin true s))).
  { destruct Hquiet as (Hshort & _).
    destruct s as [pc pt li ld ash ast asp bl fb lf lp tm].
    cbn in Hshort. subst ash. reflexivity. }
  assert (Q1 : Runs.quiet000 s1).
  { rewrite Es1. destruct Hquiet as (A & B & C). repeat split; assumption. }
  pose proof (part000_quiet_pass t1 t2 s1 Q1) as E1.
  assert (L : Part000.lastFlashStart s1 = t) by (rewrite Es1; reflexivity).
  assert (F : Part000.feedbackLedOn s1 = true) by (rewrite Es1; reflexivity).
  split; [rewrite Es1; reflexivity|]. split; [exact F|]. split; [exact Q1|].
  rewrite L, F in E1. cbn [andb] in E1. split.
  - intro H. rewrite E1. destruct (Z.leb_spec 200 (sub32 t2 t)); [lia | reflexivity].
  - intro H. rewrite E1. destruct (Z.leb_spec 200 (sub32 t2 t)); [|lia].
    split; reflexivity.
Qed.

(** The pass 150 ms after a flash was started at 1100 ms. *)
Lemma quiet_pass_and_flash_timeout_witness :
  let s := Part000.mkState 1 1000 1100 100 false false false false true 1100 true
             timer1_reset in
  Part000.loop 1250 1250 s = (s, []).
Proof.
  intro s.
  refine (proj1 (proj2 (quiet_pass_and_flash_timeout s 1250 1250 _)) _).
  - repeat split.
  - vm_compute. reflexivity.
Defined.

(** ** Stopping and starting in RoniMain.cpp *)

Section StartStopRoni.
Import RoniIsr.

Lemma roniisr_short_flash_frame t1 t2 s :
  let s' := fst (loop_flash t2 (fst (loop_short t1 s))) in
  Blink s' = Blink s /\ PressCounter s' = PressCounter s /\
  actionStart s' = actionStart s /\ tmr s' = tmr s.
Proof.
  destruct s as [pc pt li ash ast asp bl lf fb lp tm].
  unfold loop_short, loop_flash, whenc, ifc, andthen, modify, emit, emit_with, skip.
  cbn -[sub32]. destruct ash; cbn -[sub32];
    repeat match goal with
    | |- context [if ?b then _ else _] => destruct b; cbn -[sub32]
    end; repeat split; reflexivity.
Qed.

Lemma roniisr_stop_pass t1 t2 s :
  actionStop s = true ->
  let s' := fst (loop t1 t2 s) in
  Blink s' = false /\ PressCounter s' = 0 /\ actionStart s' = false /\
  TIMSK1 (tmr s') = 0 /\ TCCR1B (tmr s') = 0.
Proof.
  intros H s'. unfold s', loop. rewrite !andthen_fst.
  assert (E0 : fst (loop_stop s) = stopTimer (set_actionStop false s)).
  { unfold loop_stop. rewrite whenc_true by exact H. reflexivity. }
  rewrite E0. set (s0 := stopTimer (set_actionStop false s)).
  destruct (roniisr_short_flash_frame t1 t2 s0) as (A & B & C & D).
  set (s2 := fst (loop_flash t2 (fst (loop_short t1 s0)))) in *.
  rewrite roniisr_loop_start_cases. rewrite A, B.
  change (Blink s0) with false. change (PressCounter s0) with 0.
  cbn [negb andb Z.ltb Z.compare].
  destruct (actionStart s2) eqn:E.
  - cbn [Blink PressCounter actionStart tmr set_actionStart].
    rewrite A, B, D. repeat split.
  - rewrite A, B, D. repeat split. exact E.
Qed.

Lemma roniisr_startTimer_tmr counts s :
  tmr (startTimer counts s)
  = mkTimer1 0 (Z.lor 0 (Z.lor (bit WGM12) (Z.lor (bit CS12) (bit CS10)))) 0
      (u16 (7812 * (if counts =? 0 then 1 else counts) - 1))
      (Z.lor (TIMSK1 (tmr s)) (bit OCIE1A)).
Proof. reflexivity. Qed.

Lemma roniisr_start_in_range s :
  actionStart s = true -> Blink s = false -> 1 <= PressCounter s <= 8 ->
  let s' := fst (loop_start s) in
  snd (loop_start s)
  = [Print "Medium press. Starting with: "; PrintlnNum (PressCounter s)] /\
  Blink s' = true /\ PressCounter s' = PressCounter s /\ ledPin s' = false /\
  period_ticks (tmr s') = PressCounter s * 7812 /\
  compare_irq_enabled (tmr s') = true /\ clock_bits (tmr s') <> 0.
Proof.
  intros Hst Hb Hr s'.
  assert (E : loop_start s
              = (set_Blink true
                   (startTimer (PressCounter s)
                      (set_ledPin false (set_actionStart false s))),
                 [Print "Medium press. Starting with: ";
                  PrintlnNum (PressCounter s)])).
  { unfold loop_start. rewrite whenc_true by exact Hst.
    unfold andthen, modify, ifc, whenc, ifc, emit, emit_with, skip.
    cbn [Blink PressCounter set_actionStart set_ledPin].
    rewrite Hb. destruct (Z.ltb_spec 0 (PressCounter s)); [|lia]. reflexivity. }
  unfold s'. rewrite E. cbn [fst snd].
  split; [reflexivity|]. split; [reflexivity|]. split; [reflexivity|].
  split; [reflexivity|].
  assert (T : forall x, tmr (set_Blink true x) = tmr x) by reflexivity.
  rewrite T, roniisr_startTimer_tmr. clear T.
  unfold period_ticks, compare_irq_enabled, clock_bits. cbn [OCR1A TIMSK1 TCCR1B].
  destruct (Z.eqb_spec (PressCounter s) 0); [lia|].
  split; [|split].
  - rewrite u16_small; [lia|]. change (2 ^ 16) with 65536. lia.
  - rewrite Z.lor_spec. change (Z.testbit (bit OCIE1A) OCIE1A) with true.
    apply orb_true_r.
  - vm_compute. discriminate.
Qed.
End StartStopRoni.

(** X10.  RoniMain.cpp, interrupt sketch: a pass of [loop] that finds
    [actionStop] raised ends with [Blink] clear, the counter zero, the timer
    interrupts and clock off and no start pending, whatever was pending
    before.  The stop block does not clear [actionStart] here; a start
    raised before the stop is consumed by the start block of the same pass,
    which finds the counter already reset and therefore starts nothing. *)
Theorem stop_pass_roni
    (r : RoniIsr.state) (t1 t2 : Z)
    (Hstop : RoniIsr.actionStop r = true) :
  let r' := fst (RoniIsr.loop t1 t2 r) in
  RoniIsr.Blink r' = false /\ RoniIsr.PressCounter r' = 0 /\
  RoniIsr.actionStart r' = false /\
  TIMSK1 (RoniIsr.tmr r') = 0 /\ TCCR1B (RoniIsr.tmr r') = 0.
Proof. apply roniisr_stop_pass. exact Hstop. Qed.

(** Blinking on a count of three, then a 5 s press and a 2 s press before
    [loop] runs again. *)
Lemma stop_pass_roni_witness :
  let r := RoniIsr.set_actionStart true
             (RoniIsr.set_actionStop true
                (RoniIsr.set_Blink true
                   (RoniIsr.startTimer 3
                      (RoniIsr.set_PressCounter 3 RoniIsr.init)))) in
  RoniIsr.Blink (fst (RoniIsr.loop 0 0 r)) = false /\
  RoniIsr.actionStart (fst (RoniIsr.loop 0 0 r)) = false.
Proof.
  intro r.
  pose proof (stop_pass_roni r 0 0 eq_refl) as H. cbv zeta in H.
  destruct H as (A & _ & B & _). split; assumption.
Defined.

(** X11.  A Medium press on a counter from 1 to 8 with [Blink] clear starts
    the blinking: the start block of [loop] sets [Blink], keeps the counter,
    enables the compare interrupt, selects the clock and programs a period
    of [PressCounter] times 7812 ticks.  part_000 announces it with the
    "CONFIRMED" line; RoniMain.cpp prints "Medium press. Starting with: "
    and the counter, and forces the LED low first. *)
Theorem medium_press_starts_blinking
    (s : Part000.state) (r : RoniIsr.state)
    (Hs_start : Part000.actionStart s = true)
    (Hs_blink : Part000.Blink s = false)
    (Hs_count : 1 <= Part000.PressCounter s <= 8)
    (Hr_start : RoniIsr.actionStart r = true)
    (Hr_blink : RoniIsr.Blink r = false)
    (Hr_count : 1 <= RoniIsr.PressCounter r <= 8) :
  let s' := fst (Part000.loop_start s) in
  let r' := fst (RoniIsr.loop_start r) in
  (snd (Part000.loop_start s)
   = [Print "CONFIRMED: Duration "; PrintNum (Part000.lastDuration s);
      Print " ms. Blinking every "; PrintNum (Part000.PressCounter s);
      Println " seconds."] /\
   Part000.Blink s' = true /\ Part000.PressCounter s' = Part000.PressCounter s /\
   period_ticks (Part000.tmr s') = Part000.PressCounter s * 7812 /\
   compare_irq_enabled (Part000.tmr s') = true /\
   clock_bits (Part000.tmr s') <> 0) /\
  (snd (RoniIsr.loop_start r)
   = [Print "Medium press. Starting with: "; PrintlnNum (RoniIsr.PressCounter r)] /\
   RoniIsr.Blink r' = true /\ RoniIsr.PressCounter r' = RoniIsr.PressCounter r /\
   RoniIsr.ledPin r' = false /\
   period_ticks (RoniIsr.tmr r') = RoniIsr.PressCounter r * 7812 /\
   compare_irq_enabled (RoniIsr.tmr r') = true /\
   clock_bits (RoniIsr.tmr r') <> 0).
Proof.
  intros s' r'. split.
  - destruct (part000_start_in_range s Hs_start Hs_blink Hs_count)
      as (A & B & C & D & E).
    split; [|repeat split; assumption].
    rewrite part000_loop_start_fires by (assumption || lia). reflexivity.
  - apply roniisr_start_in_range; assumption.
Qed.

(** A start raised on a count of two. *)
Lemma medium_press_starts_blinking_witness :
  period_ticks
    (Part000.tmr
       (fst (Part000.loop_start
               (Part000.set_actionStart true
                  (Part000.set_PressCounter 2 Part000.init))))) = 15624.
Proof.
  pose proof (medium_press_starts_blinking
                (Part000.set_actionStart true
                   (Part000.set_PressCounter 2 Part000.init))
                (RoniIsr.set_actionStart true
                   (RoniIsr.set_PressCounter 2 RoniIsr.init))
                eq_refl eq_refl ltac:(cbn; lia) eq_refl eq_refl ltac:(cbn; lia))
    as H.
  cbv zeta in H. destruct H as [(_ & _ & _ & H & _) _].
  rewrite H. reflexivity.
Defined.

(** ** The polling sketch of RoniMain.cpp *)

Section Polling.
Import RoniPoll.

Ltac poll_cases :=
  repeat match goal with
  | |- context [if ?b then _ else _] => destruct b eqn:?; cbn -[sub32 s16] in *
  end.

Lemma roniPoll_release_pass now s :
  pressed s = true ->
  loop_body now true true s = on_release now s.
Proof.
  intro Hp. destruct s as [pc pr pt bl bi lf lo lp]. cbn in Hp. subst pr.
  unfold loop_body, on_release, whenc, ifc, andthen, modify, skip.
  cbn -[sub32 s16].
  destruct (sub32 now pt <=? SHORT_PRESS_TIME).
  - cbn -[sub32 s16]. rewrite sub32_same. destruct bl; reflexivity.
  - destruct (sub32 now pt <=? LONG_PRESS_TIME).
    + cbn -[sub32 s16]. rewrite sub32_same. reflexivity.
    + cbn -[sub32 s16]. reflexivity.
Qed.

Lemma roniPoll_mirror now l1 l2 s :
  ledOn s = ledPin s ->
  ledOn (fst (loop_body now l1 l2 s)) = ledPin (fst (loop_body now l1 l2 s)).
Proof.
  intro H. destruct s as [pc pr pt bl bi lf lo lp]. cbn in H. subst lp.
  unfold loop_body, on_release, whenc, ifc, andthen, modify, skip.
  cbn -[sub32 s16]. destruct l1, l2, pr; cbn -[sub32 s16]; poll_cases; reflexivity.
Qed.

Lemma roniPoll_held_pass t s :
  pressed s = true ->
  let s' := fst (loop_body t false false s) in
  pressed s' = true /\ pressTime s' = pressTime s /\
  PressCounter s' = PressCounter s /\ Blink s' = Blink s /\
  blinkInterval s' = blinkInterval s.
Proof.
  intro Hp. destruct s as [pc pr pt bl bi lf lo lp]. cbn in Hp. subst pr.
  unfold loop_body, on_release, whenc, ifc, andthen, modify, skip.
  cbn -[sub32 s16]. poll_cases; repeat split; reflexivity.
Qed.

Lemma roniPoll_held ts : forall s,
  pressed s = true ->
  let s' := Runs.held ts s in
  pressed s' = true /\ pressTime s' = pressTime s /\
  PressCounter s' = PressCounter s /\ Blink s' = Blink s /\
  blinkInterval s' = blinkInterval s.
Proof.
  induction ts as [| t ts IH]; intros s Hp.
  - cbn. repeat split. exact Hp.
  - cbn [Runs.held].
    destruct (roniPoll_held_pass t s Hp) as (A & B & C & D & E).
    destruct (IH _ A) as (A' & B' & C' & D' & E').
    cbv zeta. repeat split; congruence.
Qed.

Lemma roniPoll_press_pass t s :
  pressed s = false ->
  let s' := fst (loop_body t false false s) in
  pressed s' = true /\ pressTime s' = t /\
  PressCounter s' = PressCounter s /\ Blink s' = Blink s.
Proof.
  intro Hp. destruct s as [pc pr pt bl bi lf lo lp]. cbn in Hp. subst pr.
  unfold loop_body, on_release, whenc, ifc, andthen, modify, skip.
  cbn -[sub32 s16]. poll_cases; repeat split; reflexivity.
Qed.

Lemma roniPoll_bounce_pass now s :
  pressed s = false ->
  loop_body now false true s
  = (mkState (s16 (PressCounter s + 1)) false now (Blink s) (blinkInterval s)
       now true true,
     [Print "Short press number: "; PrintlnNum (s16 (PressCounter s + 1))]).
Proof.
  intro Hp. destruct s as [pc pr pt bl bi lf lo lp]. cbn in Hp. subst pr.
  unfold loop_body, on_release, whenc, ifc, andthen, modify, skip.
  repeat (progress (cbn -[sub32 s16]) || rewrite sub32_same).
  destruct bl; reflexivity.
Qed.

Lemma roniPoll_idle_pass now s :
  pressed s = false ->
  loop_body now true true s
  = (let elapsed := sub32 now (lastFlashStart s) in
     let off := ledOn s && (interval <=? elapsed) in
     let lit := if off then false else ledOn s in
     let pin := if off then false else ledPin s in
     if Blink s && negb lit && (blinkInterval s <=? elapsed)
     then mkState (PressCounter s) false (pressTime s) (Blink s)
            (blinkInterval s) now true true
     else mkState (PressCounter s) false (pressTime s) (Blink s)
            (blinkInterval s) (lastFlashStart s) lit pin, []).
Proof.
  intro Hp. destruct s as [pc pr pt bl bi lf lo lp]. cbn in Hp. subst pr.
  unfold loop_body, on_release, whenc, ifc, andthen, modify, skip.
  cbn -[sub32 s16 interval].
  destruct (lo && (interval <=? sub32 now lf)); cbn -[sub32 s16 interval];
    destruct (bl && _ && _); reflexivity.
Qed.
End Polling.

(** X12.  Polling sketch of RoniMain.cpp: a release seen by a pass (button
    known as pressed, both readings HIGH) is classified on the unsigned
    difference [d] of the reading and [pressTime] with inclusive bounds:
    [d <= 1500] counts a short press (counter plus one as an [int], LED on,
    prints the counter), [1500 < d <= 4000] starts the blinking whatever the
    counter is (interval 1000 ms for a count of 1, 2000 ms for 2, 3000 ms
    for every other count, zero included), and [d > 4000] clears the counter
    and [Blink] and switches the LED off.  So 1500 ms is still Short and
    4000 ms still Medium here. *)
Theorem polling_release
    (s : RoniPoll.state) (now : Z)
    (Hpressed : RoniPoll.pressed s = true) :
  let d := sub32 now (RoniPoll.pressTime s) in
  let r := RoniPoll.loop_body now true true s in
  (d <= 1500 ->
   r = (RoniPoll.mkState (s16 (RoniPoll.PressCounter s + 1)) false
          (RoniPoll.pressTime s) (RoniPoll.Blink s) (RoniPoll.blinkInterval s)
          now true true,
        [Print "Short press number: ";
         PrintlnNum (s16 (RoniPoll.PressCounter s + 1))])) /\
  (1500 < d <= 4000 ->
   r = (RoniPoll.mkState (RoniPoll.PressCounter s) false (RoniPoll.pressTime s)
          true
          (if RoniPoll.PressCounter s =? 1 then 1000
           else if RoniPoll.PressCounter s =? 2 then 2000 else 3000)
          now true true,
        [Println "Medium press"])) /\
  (4000 < d ->
   r = (RoniPoll.mkState 0 false (RoniPoll.pressTime s) false
          (RoniPoll.blinkInterval s) (RoniPoll.lastFlashStart s) false false,
        [Println "Long press - LED off"])).
Proof.
  intros d r. unfold r. rewrite roniPoll_release_pass by exact Hpressed.
  unfold RoniPoll.on_release. fold d.
  unfold RoniPoll.SHORT_PRESS_TIME, RoniPoll.LONG_PRESS_TIME.
  destruct (Z.leb_spec d 1500); destruct (Z.leb_spec d 4000);
    repeat split; intros; try lia; reflexivity.
Qed.

(** A press seen at 1000 ms and released at exactly 2500 ms and 5000 ms. *)
Lemma polling_release_witness :
  RoniPoll.PressCounter
    (fst (RoniPoll.loop_body 2500 true true
            (fst (RoniPoll.loop_body 1000 false false RoniPoll.init)))) = 1 /\
  RoniPoll.Blink
    (fst (RoniPoll.loop_body 5000 true true
            (fst (RoniPoll.loop_body 1000 false false RoniPoll.init)))) = true.
Proof.
  split.
  - rewrite (proj1 (polling_release
               (fst (RoniPoll.loop_body 1000 false false RoniPoll.init))
               2500 eq_refl)); [reflexivity | vm_compute; discriminate].
  - rewrite (proj1 (proj2 (polling_release
               (fst (RoniPoll.loop_body 1000 false false RoniPoll.init))
               5000 eq_refl))); [reflexivity | vm_compute].
    split; [reflexivity | discriminate].
Defined.

(** X13.  Polling sketch: the flag [ledOn] always mirrors the level driven
    on the LED pin.  They agree in the initial state, and if they agree
    before a pass of [loop] they agree after it, whatever the readings of
    the clock and of the button are. *)
Theorem ledOn_mirrors_the_pin
    (s : RoniPoll.state) (now : Z) (l1 l2 : bool)
    (Hmirror : RoniPoll.ledOn s = RoniPoll.ledPin s) :
  RoniPoll.ledOn RoniPoll.init = RoniPoll.ledPin RoniPoll.init /\
  RoniPoll.ledOn (fst (RoniPoll.loop_body now l1 l2 s))
  = RoniPoll.ledPin (fst (RoniPoll.loop_body now l1 l2 s)).
Proof. split; [reflexivity | apply roniPoll_mirror, Hmirror]. Qed.

(** The first pass that sees the button pressed. *)
Lemma ledOn_mirrors_the_pin_witness :
  RoniPoll.ledOn (fst (RoniPoll.loop_body 1000 false false RoniPoll.init))
  = RoniPoll.ledPin (fst (RoniPoll.loop_body 1000 false false RoniPoll.init)).
Proof.
  apply (ledOn_mirrors_the_pin RoniPoll.init 1000 false false eq_refl).
Defined.

(** X14.  Polling sketch: a press is timed from the first pass that sees
    it.  That pass (button not yet known as pressed, readings LOW) records
    its clock reading in [pressTime]; any number of further passes with the
    button held leave [pressTime], the counter, [Blink] and the interval
    alone; the pass that sees the release therefore classifies the unsigned
    difference of its own reading and the reading of the first pass. *)
Theorem press_is_timed_from_first_pass
    (s : RoniPoll.state) (t0 t1 : Z) (ts : list Z)
    (Hreleased : RoniPoll.pressed s = false) :
  let s0 := fst (RoniPoll.loop_body t0 false false s) in
  let sh := Runs.held ts s0 in
  (RoniPoll.pressed s0 = true /\ RoniPoll.pressTime s0 = t0) /\
  (RoniPoll.pressed sh = true /\ RoniPoll.pressTime sh = t0 /\
   RoniPoll.PressCounter sh = RoniPoll.PressCounter s /\
   RoniPoll.Blink sh = RoniPoll.Blink s) /\
  RoniPoll.loop_body t1 true true sh = RoniPoll.on_release t1 sh /\
  sub32 t1 (RoniPoll.pressTime sh) = sub32 t1 t0.
Proof.
  intros s0 sh.
  destruct (roniPoll_press_pass t0 s Hreleased) as (A & B & C & D).
  fold s0 in A, B, C, D.
  destruct (roniPoll_held ts s0 A) as (A' & B' & C' & D' & _).
  fold sh in A', B', C', D'.
  split; [split; assumption|].
  split; [repeat split; congruence|].
  split; [apply roniPoll_release_pass, A' | congruence].
Qed.

(** Pressed at 1000 ms, held over three passes, released at 1400 ms. *)
Lemma press_is_timed_from_first_pass_witness :
  RoniPoll.pressTime
    (Runs.held [1100; 1200; 1300]
       (fst (RoniPoll.loop_body 1000 false false RoniPoll.init))) = 1000.
Proof.
  pose proof (press_is_timed_from_first_pass RoniPoll.init 1000 1400
                [1100; 1200; 1300] eq_refl) as H.
  cbv zeta in H. destruct H as (_ & (_ & H & _) & _). exact H.
Defined.

(** X15.  Polling sketch: there is no debounce.  A pass that is not in a
    press and reads the button LOW and then HIGH records the press and its
    release at the same clock reading, so it counts a short press of 0 ms:
    the counter goes up by one, the LED is switched on and the counter is
    printed. *)
Theorem bounce_in_one_pass_counts
    (s : RoniPoll.state) (now : Z)
    (Hreleased : RoniPoll.pressed s = false) :
  RoniPoll.loop_body now false true s
  = (RoniPoll.mkState (s16 (RoniPoll.PressCounter s + 1)) false now
       (RoniPoll.Blink s) (RoniPoll.blinkInterval s) now true true,
     [Print "Short press number: ";
      PrintlnNum (s16 (RoniPoll.PressCounter s + 1))]).
Proof. apply roniPoll_bounce_pass. exact Hreleased. Qed.

(** Such a pass on the freshly started sketch. *)
Lemma bounce_in_one_pass_counts_witness :
  RoniPoll.PressCounter (fst (RoniPoll.loop_body 700 false true RoniPoll.init)) = 1.
Proof.
  rewrite (bounce_in_one_pass_counts RoniPoll.init 700 eq_refl). reflexivity.
Defined.

(** X16.  Polling sketch, a pass with the button up and not in a press.
    With [elapsed] the unsigned difference of the clock reading and
    [lastFlashStart]: a lit LED stays lit while [elapsed < 500] and is
    switched off at 500 ms, [lastFlashStart] being kept (when the system
    does not blink, or the interval has not yet elapsed); a dark LED is
    switched on again, with [lastFlashStart] set to the reading, as soon as
    [Blink] is set and [elapsed] has reached [blinkInterval], and not
    before.  The flashes of the blinking are thus [blinkInterval] apart from
    start to start and last 500 ms; the pass prints nothing and never
    changes the counter, [Blink] or the interval. *)
Theorem polling_blink_cycle
    (s : RoniPoll.state) (now : Z)
    (Hreleased : RoniPoll.pressed s = false) :
  let elapsed := sub32 now (RoniPoll.lastFlashStart s) in
  let r := RoniPoll.loop_body now true true s in
  snd r = [] /\
  (RoniPoll.PressCounter (fst r) = RoniPoll.PressCounter s /\
   RoniPoll.Blink (fst r) = RoniPoll.Blink s /\
   RoniPoll.blinkInterval (fst r) = RoniPoll.blinkInterval s) /\
  (RoniPoll.ledOn s = true -> elapsed < 500 -> fst r = s) /\
  (RoniPoll.ledOn s = true -> 500 <= elapsed ->
   elapsed < RoniPoll.blinkInterval s ->
   RoniPoll.ledOn (fst r) = false /\ RoniPoll.ledPin (fst r) = false /\
   RoniPoll.lastFlashStart (fst r) = RoniPoll.lastFlashStart s) /\
  (RoniPoll.ledOn s = false -> RoniPoll.Blink s = true ->
   RoniPoll.blinkInterval s <= elapsed ->
   RoniPoll.ledOn (fst r) = true /\ RoniPoll.ledPin (fst r) = true /\
   RoniPoll.lastFlashStart (fst r) = now) /\
  (RoniPoll.ledOn s = true -> 500 <= elapsed -> RoniPoll.Blink s = false ->
   RoniPoll.ledOn (fst r) = false /\ RoniPoll.ledPin (fst r) = false /\
   RoniPoll.lastFlashStart (fst r) = RoniPoll.lastFlashStart s) /\
  (RoniPoll.ledOn s = false -> elapsed < RoniPoll.blinkInterval s -> fst r = s) /\
  (RoniPoll.ledOn s = false -> RoniPoll.Blink s = false -> fst r = s).
Proof.
  intros elapsed r. unfold r.
  rewrite (roniPoll_idle_pass now s Hreleased). fold elapsed. cbv zeta.
  destruct s as [pc pr pt bl bi lf lo lp]. cbn in Hreleased. subst pr.
  cbn [RoniPoll.ledOn RoniPoll.Blink RoniPoll.blinkInterval RoniPoll.ledPin
       RoniPoll.PressCounter RoniPoll.pressTime RoniPoll.lastFlashStart] in *.
  unfold RoniPoll.interval.
  split; [reflexivity|].
  split; [destruct (bl && _ && _); repeat split; reflexivity|].
  destruct (Z.leb_spec 500 elapsed); destruct (Z.leb_spec bi elapsed);
    destruct lo, bl; cbn;
    repeat split; intros; try discriminate; try lia; reflexivity.
Qed.

(** Blinking every 2000 ms: the LED lit at 10000 ms is switched off by the
    pass at 10500 ms and on again by the pass at 12000 ms. *)
Lemma polling_blink_cycle_witness :
  let s := RoniPoll.mkState 2 false 0 true 2000 10000 true true in
  let s1 := fst (RoniPoll.loop_body 10500 true true s) in
  RoniPoll.ledPin s1 = false /\
  RoniPoll.ledPin (fst (RoniPoll.loop_body 12000 true true s1)) = true.
Proof.
  intros s s1.
  pose proof (polling_blink_cycle s 10500 eq_refl) as H. cbv zeta in H.
  destruct H as (_ & _ & _ & H & _).
  destruct (H eq_refl) as (_ & H1 & _);
    [vm_compute; discriminate | vm_compute; reflexivity |].
  split; [exact H1 | reflexivity].
Defined.

(** ** Ticks of the millisecond counter *)

Section Ticks.
Import RoniPoll.

Lemma u32_idem_add (a b : Z) : u32 (u32 a + b) = u32 (a + b).
Proof. unfold u32. apply Zplus_mod_idemp_l. Qed.

Lemma ticks_systemMs n : forall m,
  0 <= systemMs m < 2 ^ 32 ->
  systemMs (Runs.ticks n m) = u32 (systemMs m + Z.of_nat n).
Proof.
  induction n as [| n IH]; intros m Hm.
  - cbn [Runs.ticks]. rewrite Z.add_0_r. unfold u32.
    rewrite Z.mod_small by exact Hm. reflexivity.
  - cbn [Runs.ticks]. rewrite IH by apply tickISR_range.
    cbn [systemMs tickISR]. rewrite u32_idem_add. f_equal. lia.
Qed.

Lemma getSystemMs_quiet m :
  0 <= systemMs m < 2 ^ 32 -> snd (getSystemMs [] m) = systemMs m.
Proof.
  intro H. destruct (getSystemMs_run [] m H) as [pend E].
  rewrite E. reflexivity.
Qed.

(** The pending flag at the end of the guarded section, spelled out. *)
Lemma getSystemMs_run_pending arrivals m :
  0 <= systemMs m < 2 ^ 32 ->
  getSystemMs arrivals m
  = (if existsb (fun b => b) (firstn 5 (tl arrivals))
        || tick_pending (at_cli arrivals m)
     then tickISR (mkMachine (systemMs (at_cli arrivals m)) true false)
     else mkMachine (systemMs (at_cli arrivals m)) true false,
     systemMs (at_cli arrivals m)).
Proof.
  intro H. unfold getSystemMs.
  rewrite run_cli, !run_load_masked, run_sei_masked.
  rewrite (bytes_reassemble _ (at_cli_range arrivals m H)).
  f_equal.
  assert (E : forall p,
            hd false (tl (tl (tl (tl (tl arrivals)))))
            || (hd false (tl (tl (tl (tl arrivals))))
                || (hd false (tl (tl (tl arrivals)))
                    || (hd false (tl (tl arrivals))
                        || (hd false (tl arrivals) || p))))
            = existsb (fun b => b) (firstn 5 (tl arrivals)) || p).
  { intro p.
    destruct arrivals as [| b0 [| b1 [| b2 [| b3 [| b4 [| b5 rest]]]]]];
      cbn [tl hd firstn existsb];
      repeat match goal with b : bool |- _ => destruct b end; reflexivity. }
  rewrite E. reflexivity.
Qed.
End Ticks.

(** X17.  [getSystemMs] delays a tick but does not drop it.  If a compare
    match of Timer2 arrives inside the guarded section (before one of the
    four loads or before [interrupts()]), or one was already pending, the
    tick is served right after [interrupts()]: the counter ends one above
    the value returned.  If none arrives there and none was pending, the
    counter ends equal to the value returned. *)
Theorem guarded_read_delays_the_tick
    (arrivals : list bool) (m : RoniPoll.machine)
    (Hrange : 0 <= RoniPoll.systemMs m < 2 ^ 32) :
  let r := RoniPoll.getSystemMs arrivals m in
  let inside := existsb (fun b => b) (firstn 5 (tl arrivals)) in
  let pending := RoniPoll.tick_pending (RoniPoll.at_cli arrivals m) in
  (inside || pending = true -> RoniPoll.systemMs (fst r) = u32 (snd r + 1)) /\
  (inside || pending = false -> RoniPoll.systemMs (fst r) = snd r).
Proof.
  intros r inside pending. unfold r.
  rewrite (getSystemMs_run_pending arrivals m Hrange).
  fold inside. fold pending. cbn [fst snd].
  split; intro H; rewrite H; reflexivity.
Qed.

(** A tick just before the last load, the counter at 41. *)
Lemma guarded_read_delays_the_tick_witness :
  snd (RoniPoll.getSystemMs [false; false; false; false; true]
         (RoniPoll.mkMachine 41 true false)) = 41 /\
  RoniPoll.systemMs
    (fst (RoniPoll.getSystemMs [false; false; false; false; true]
            (RoniPoll.mkMachine 41 true false))) = 42.
Proof.
  split; [reflexivity|].
  rewrite (proj1 (guarded_read_delays_the_tick
                    [false; false; false; false; true]
                    (RoniPoll.mkMachine 41 true false) ltac:(cbn; lia)));
    reflexivity.
Defined.

(** X18.  The difference of two readings is the number of ticks between
    them.  After [n] ticks the counter holds its old value plus [n] modulo
    2^32, and for fewer than 2^32 ticks the unsigned difference of a
    reading taken after them and one taken before them is exactly [n], also
    when the counter wrapped in between: this is the [now - pressTime] and
    [now - lastFlashStart] of the polling loop. *)
Theorem readings_differ_by_ticks
    (m : RoniPoll.machine) (n : nat)
    (Hrange : 0 <= RoniPoll.systemMs m < 2 ^ 32)
    (Hn : Z.of_nat n < 2 ^ 32) :
  RoniPoll.systemMs (Runs.ticks n m) = u32 (RoniPoll.systemMs m + Z.of_nat n) /\
  sub32 (snd (RoniPoll.getSystemMs [] (Runs.ticks n m)))
        (snd (RoniPoll.getSystemMs [] m)) = Z.of_nat n.
Proof.
  pose proof (ticks_systemMs n m Hrange) as E.
  split; [exact E|].
  rewrite (getSystemMs_quiet m Hrange).
  rewrite getSystemMs_quiet by (rewrite E; apply u32_range).
  rewrite E. unfold sub32, u32.
  rewrite Zminus_mod_idemp_l.
  replace (RoniPoll.systemMs m + Z.of_nat n - RoniPoll.systemMs m)
    with (Z.of_nat n) by lia.
  apply Z.mod_small. lia.
Qed.

(** 100 ticks across the wrap of the counter. *)
Lemma readings_differ_by_ticks_witness :
  sub32 (snd (RoniPoll.getSystemMs []
                (Runs.ticks 100 (RoniPoll.mkMachine (2 ^ 32 - 16) true false))))
        (snd (RoniPoll.getSystemMs []
                (RoniPoll.mkMachine (2 ^ 32 - 16) true false))) = 100.
Proof.
  apply (readings_differ_by_ticks
           (RoniPoll.mkMachine (2 ^ 32 - 16) true false) 100).
  - cbn [RoniPoll.systemMs]. lia.
  - cbn. lia.
Defined.

(** ** part_000 and the interrupt sketch of RoniMain.cpp side by side *)

Section SideBySide.
Import Runs.

Lemma to_roni_buttonISR now level s :
  to_roni (Part000.buttonISR now level s)
  = RoniIsr.buttonISR now level (to_roni s).
Proof.
  destruct s as [pc pt li ld ash ast asp bl fb lf lp tm].
  unfold Part000.buttonISR, RoniIsr.buttonISR, to_roni.
  cbn -[sub32 s16 Part000.classify RoniIsr.classify].
  change RoniIsr.DEBOUNCE_TIME with Part000.DEBOUNCE_TIME.
  destruct (_ <? Part000.DEBOUNCE_TIME); [reflexivity|].
  destruct level; [reflexivity|].
  change (RoniIsr.classify (sub32 now pt)) with (Part000.classify (sub32 now pt)).
  destruct (Part000.classify _); [destruct bl|..]; reflexivity.
Qed.

Lemma to_roni_startTimer c s :
  0 <= c -> to_roni (Part000.startTimer c s) = RoniIsr.startTimer c (to_roni s).
Proof.
  intro H. destruct s as [pc pt li ld ash ast asp bl fb lf lp [a b k o i]].
  unfold Part000.startTimer, RoniIsr.startTimer.
  assert (E : (if c <=? 0 then 1 else c) = (if c =? 0 then 1 else c)).
  { destruct (Z.leb_spec c 0); destruct (Z.eqb_spec c 0); lia. }
  rewrite E. reflexivity.
Qed.

Lemma to_roni_loop_short t s :
  to_roni (fst (Part000.loop_short t s)) = fst (RoniIsr.loop_short t (to_roni s)).
Proof.
  destruct s as [pc pt li ld ash ast asp bl fb lf lp tm].
  unfold Part000.loop_short, RoniIsr.loop_short, whenc, ifc, to_roni.
  cbn [Part000.actionShort RoniIsr.actionShort]. destruct ash; reflexivity.
Qed.

Lemma to_roni_loop_flash t s :
  to_roni (fst (Part000.loop_flash t s)) = fst (RoniIsr.loop_flash t (to_roni s)).
Proof.
  destruct s as [pc pt li ld ash ast asp bl fb lf lp tm].
  unfold Part000.loop_flash, RoniIsr.loop_flash, whenc, ifc, to_roni.
  cbn [Part000.feedbackLedOn RoniIsr.feedbackLedOn
       Part000.lastFlashStart RoniIsr.lastFlashStart].
  destruct (fb && _); reflexivity.
Qed.
End SideBySide.

(** X19.  part_000 keeps the behaviour of RoniMain.cpp's interrupt sketch
    where the two share code.  Forgetting [lastDuration], the button handler
    of part_000 does to a state exactly what the handler of RoniMain.cpp
    does to it, for every reading and level; so do [startTimer] on a count
    that is not negative, the short-press block and the flash-timeout block
    of [loop], and the timer handler while [Blink] is set (RoniMain.cpp's
    toggles regardless of [Blink]). *)
Theorem part000_agrees_with_roni
    (s : Part000.state) (now t c : Z) (level : bool) :
  Runs.to_roni (Part000.buttonISR now level s)
  = RoniIsr.buttonISR now level (Runs.to_roni s) /\
  (0 <= c ->
   Runs.to_roni (Part000.startTimer c s) = RoniIsr.startTimer c (Runs.to_roni s)) /\
  Runs.to_roni (fst (Part000.loop_short t s))
  = fst (RoniIsr.loop_short t (Runs.to_roni s)) /\
  Runs.to_roni (fst (Part000.loop_flash t s))
  = fst (RoniIsr.loop_flash t (Runs.to_roni s)) /\
  (Part000.Blink s = true ->
   Runs.to_roni (Part000.timerISR s) = RoniIsr.timerISR (Runs.to_roni s)) /\
  (Part000.Blink s = false -> Part000.timerISR s = s).
Proof.
  split; [apply to_roni_buttonISR|].
  split; [apply to_roni_startTimer|].
  split; [apply to_roni_loop_short|].
  split; [apply to_roni_loop_flash|].
  split; intro H; unfold Part000.timerISR; rewrite H; reflexivity.
Qed.

(** A start on a count of three in both sketches. *)
Lemma part000_agrees_with_roni_witness :
  Runs.to_roni (Part000.startTimer 3 Part000.init) = RoniIsr.startTimer 3 RoniIsr.init.
Proof.
  refine (proj1 (proj2
    (part000_agrees_with_roni Part000.init 0 0 3 true)) _).
  lia.
Defined.

(** ** main.cpp: the period and the restart after a stop *)

Section PeriodMain.
Import MainCpp.

Lemma maincpp_compare_value c :
  1 <= c <= 8 ->
  u16 (Z.quot (s32 (15625 * s16 (c * 500))) 1000 - 1) = 15625 * c / 2 - 1.
Proof.
  intro H.
  assert (E : c = 1 \/ c = 2 \/ c = 3 \/ c = 4 \/ c = 5 \/ c = 6 \/ c = 7 \/ c = 8)
    by lia.
  destruct E as [-> | [-> | [-> | [-> | [-> | [-> | [-> | ->]]]]]]]; reflexivity.
Qed.

Lemma maincpp_medium_period now m :
  classify (sub32 now (pressStartTime m)) = Medium ->
  1 <= shortPressCount m <= 8 ->
  let m' := handleButtonISR now false m in
  period_ticks (tmr m') = 15625 * shortPressCount m / 2 /\
  clock_bits (tmr m') <> 0 /\
  shortPressCount m' = shortPressCount m /\ ledPin m' = ledPin m.
Proof.
  intros Hc Hn m'. unfold m', handleButtonISR. rewrite Hc.
  assert (Hz : shortPressCount m <> 0) by lia.
  split; [|split; [apply maincpp_startBlinking_runs; exact Hz|]].
  - rewrite (maincpp_startBlinking_eq _ _ Hz).
    unfold period_ticks. cbn [tmr set_tmr OCR1A].
    rewrite maincpp_compare_value by exact Hn. lia.
  - rewrite (maincpp_startBlinking_eq _ _ Hz). split; reflexivity.
Qed.

Lemma maincpp_medium_after_long t1 t2 t3 m :
  classify (sub32 t1 (pressStartTime m)) = Long ->
  classify (sub32 t3 t2) = Medium ->
  let m1 := handleButtonISR t1 false m in
  handleButtonISR t3 false (handleButtonISR t2 true m1) = set_pressStartTime t2 m1 /\
  clock_bits (tmr m1) = 0 /\ shortPressCount m1 = 0 /\ ledPin m1 = false.
Proof.
  intros H1 H2 m1.
  assert (E : m1 = stopSystem m)
    by (unfold m1, handleButtonISR; rewrite H1; reflexivity).
  destruct (maincpp_stopSystem_off m) as (A & B & C).
  rewrite <- E in A, B, C.
  split; [|repeat split; assumption].
  unfold handleButtonISR at 1.
  cbn [handleButtonISR pressStartTime set_pressStartTime shortPressCount].
  rewrite H2, A. reflexivity.
Qed.
End PeriodMain.

(** X20.  main.cpp: a Medium press on a counter from 1 to 8 starts the
    clock of Timer1 with a compare period of [15625 * count / 2] ticks
    (integer division), that is [count] half seconds to within one tick of
    64 us at the 15625 Hz the comment of [startBlinking] assumes; the
    counter and the LED are left as they are. *)
Theorem medium_press_period_main
    (m : MainCpp.state) (now : Z)
    (Hmedium : MainCpp.classify (sub32 now (MainCpp.pressStartTime m)) = Medium)
    (Hcount : 1 <= MainCpp.shortPressCount m <= 8) :
  let m' := MainCpp.handleButtonISR now false m in
  period_ticks (MainCpp.tmr m') = 15625 * MainCpp.shortPressCount m / 2 /\
  (2 * period_ticks (MainCpp.tmr m') <= 15625 * MainCpp.shortPressCount m
   < 2 * period_ticks (MainCpp.tmr m') + 2) /\
  clock_bits (MainCpp.tmr m') <> 0 /\
  MainCpp.shortPressCount m' = MainCpp.shortPressCount m /\
  MainCpp.ledPin m' = MainCpp.ledPin m.
Proof.
  intro m'.
  destruct (maincpp_medium_period now m Hmedium Hcount) as (A & B & C & D).
  fold m' in A, B, C, D. split; [exact A|]. split; [|repeat split; assumption].
  rewrite A.
  pose proof (Z.div_mod (15625 * MainCpp.shortPressCount m) 2 ltac:(lia)).
  pose proof (Z.mod_pos_bound (15625 * MainCpp.shortPressCount m) 2 ltac:(lia)).
  lia.
Qed.

(** The 2 s press after three counted ones. *)
Lemma medium_press_period_main_witness :
  period_ticks (MainCpp.tmr Scenario.mainBlinking3) = 23437.
Proof.
  pose proof (medium_press_period_main
                (MainCpp.handleButtonISR 10000 true
                   (Scenario.pressMain 3000 100
                      (Scenario.pressMain 2000 100
                         (Scenario.pressMain 1000 100 MainCpp.init))))
                12000 eq_refl ltac:(vm_compute; split; discriminate)) as H.
  cbv zeta in H. destruct H as [H _]. exact H.
Defined.

(** X21.  main.cpp stays off after a Long press until presses are counted
    again: the Long press stops the clock, switches the LED off and clears
    the counter, so a Medium press that follows it directly finds a zero
    counter and only records its own start time. *)
Theorem medium_after_long_does_nothing
    (m : MainCpp.state) (t1 t2 t3 : Z)
    (Hlong : MainCpp.classify (sub32 t1 (MainCpp.pressStartTime m)) = Long)
    (Hmedium : MainCpp.classify (sub32 t3 t2) = Medium) :
  let m1 := MainCpp.handleButtonISR t1 false m in
  MainCpp.handleButtonISR t3 false (MainCpp.handleButtonISR t2 true m1)
  = MainCpp.set_pressStartTime t2 m1 /\
  clock_bits (MainCpp.tmr m1) = 0 /\ MainCpp.shortPressCount m1 = 0 /\
  MainCpp.ledPin m1 = false.
Proof. apply maincpp_medium_after_long; assumption. Qed.

(** Blinking on a count of three, a 5 s press, then a 2 s press. *)
Lemma medium_after_long_does_nothing_witness :
  clock_bits
    (MainCpp.tmr
       (MainCpp.handleButtonISR 22000 false
          (MainCpp.handleButtonISR 20000 true
             (MainCpp.handleButtonISR 15000 false Scenario.mainBlinking3)))) = 0.
Proof.
  pose proof (medium_after_long_does_nothing Scenario.mainBlinking3
                15000 20000 22000 eq_refl eq_refl) as H.
  cbv zeta in H. destruct H as (E & C & _).
  rewrite E. exact C.
Defined.

(** ** Compare matches of Timer1 *)

Lemma part000_matches n : forall s,
  Runs.matches000 n s
  = Part000.set_ledPin
      (xorb (Part000.ledPin s) (Part000.Blink s && Nat.odd n)) s.
Proof.
  induction n as [| n IH]; intro s.
  - cbn [Runs.matches000 Nat.odd]. rewrite andb_false_r, xorb_false_r.
    destruct s. reflexivity.
  - cbn [Runs.matches000]. rewrite IH. rewrite Nat.odd_succ, <- Nat.negb_odd.
    destruct s as [pc pt li ld ash ast asp bl fb lf lp tm].
    unfold Part000.timerISR. cbn [Part000.Blink Part000.ledPin].
    destruct bl, lp, (Nat.odd n); reflexivity.
Qed.

(** X22.  part_000: the timer handler touches nothing but the LED.  After
    [n] compare matches the state is the one before with the LED inverted
    if [Blink] is set and [n] is odd, and unchanged otherwise; with [Blink]
    clear no number of matches toggles the LED. *)
Theorem compare_matches_only_toggle_the_led
    (s : Part000.state) (n : nat) :
  Runs.matches000 n s
  = Part000.set_ledPin
      (xorb (Part000.ledPin s) (Part000.Blink s && Nat.odd n)) s /\
  (Part000.Blink s = false -> Runs.matches000 n s = s) /\
  (Part000.Blink s = true ->
   Part000.ledPin (Runs.matches000 (2 * n) s) = Part000.ledPin s /\
   Part000.ledPin (Runs.matches000 (2 * n + 1) s) = negb (Part000.ledPin s)).
Proof.
  split; [apply part000_matches|]. split.
  - intro H. rewrite part000_matches, H. cbn [andb]. rewrite xorb_false_r.
    destruct s. reflexivity.
  - intro H. rewrite !part000_matches, H. cbn [andb Part000.ledPin Part000.set_ledPin].
    rewrite Nat.odd_even, Nat.add_1_r, Nat.odd_succ, Nat.even_even.
    rewrite xorb_false_r, xorb_true_r. split; reflexivity.
Qed.

(** Three matches while part_000 blinks. *)
Lemma compare_matches_only_toggle_the_led_witness :
  Part000.ledPin (Runs.matches000 3 (Part000.set_Blink true Part000.init)) = true.
Proof.
  pose proof (compare_matches_only_toggle_the_led
                (Part000.set_Blink true Part000.init) 1) as (_ & _ & H).
  destruct (H eq_refl) as [_ H3]. exact H3.
Defined.

(** ** A start without counts in RoniMain.cpp, and what a press prints *)

Lemma roniisr_start_without_count s :
  RoniIsr.actionStart s = true -> RoniIsr.PressCounter s <= 0 ->
  RoniIsr.loop_start s = (RoniIsr.set_actionStart false s, []).
Proof.
  intros Hst Hc. unfold RoniIsr.loop_start. rewrite whenc_true by exact Hst.
  unfold andthen, modify, ifc, whenc, ifc, skip.
  cbn [RoniIsr.Blink RoniIsr.PressCounter RoniIsr.set_actionStart].
  destruct (Z.ltb_spec 0 (RoniIsr.PressCounter s)); [lia|].
  rewrite andb_false_r. reflexivity.
Qed.

Lemma part000_start_negative_count s :
  Part000.actionStart s = true -> Part000.PressCounter s < 0 ->
  Part000.loop_start s = (Part000.set_actionStart false s, []).
Proof.
  intros Hst Hc. unfold Part000.loop_start. rewrite whenc_true by exact Hst.
  unfold andthen, modify, ifc, whenc, ifc, skip.
  cbn [Part000.Blink Part000.PressCounter Part000.set_actionStart].
  destruct (Z.ltb_spec 0 (Part000.PressCounter s)); [lia|].
  destruct (Z.eqb_spec (Part000.PressCounter s) 0); [lia|].
  rewrite !andb_false_r. reflexivity.
Qed.

(** X23.  A Medium press that finds no counts is not always reported.  In
    RoniMain.cpp's interrupt sketch the start block has no else branch: with
    a counter of zero (or below) it takes the flag away, prints nothing and
    changes nothing else.  In part_000 the "ERROR" line is tied to a counter
    of exactly zero: on a negative counter (an [int] that wrapped) the flag
    is consumed just as silently. *)
Theorem start_without_count_is_silent
    (s : Part000.state) (r : RoniIsr.state)
    (Hr_start : RoniIsr.actionStart r = true)
    (Hr_count : RoniIsr.PressCounter r <= 0)
    (Hs_start : Part000.actionStart s = true)
    (Hs_count : Part000.PressCounter s < 0) :
  RoniIsr.loop_start r = (RoniIsr.set_actionStart false r, []) /\
  Part000.loop_start s = (Part000.set_actionStart false s, []).
Proof.
  split.
  - apply roniisr_start_without_count; assumption.
  - apply part000_start_negative_count; assumption.
Qed.

(** A 2 s press on the freshly started sketch of RoniMain.cpp. *)
Lemma start_without_count_is_silent_witness :
  RoniIsr.loop_start (RoniIsr.buttonISR 2000 false RoniIsr.init)
  = (RoniIsr.set_actionStart false (RoniIsr.buttonISR 2000 false RoniIsr.init), []).
Proof.
  apply (start_without_count_is_silent
           (Part000.set_actionStart true (Part000.set_PressCounter (-1) Part000.init))
           (RoniIsr.buttonISR 2000 false RoniIsr.init)
           eq_refl ltac:(vm_compute; discriminate) eq_refl eq_refl).
Defined.

Section Printed.
Import Part000.

(** The state after the two interrupts of a press of [d] ms. *)
Lemma part000_press_release t d s :
  DEBOUNCE_TIME <= sub32 (u32 t) (lastISRTime s) ->
  50 <= d < 2 ^ 32 ->
  buttonISR (u32 (t + d)) false (buttonISR (u32 t) true s)
  = (let s1 := set_lastDuration d
                 (set_lastISRTime (u32 (t + d))
                    (set_pressTime (u32 t) (set_lastISRTime (u32 t) s))) in
     match classify d with
     | Short => if Blink s then s1
                else set_actionShort true
                       (set_PressCounter (s16 (PressCounter s + 1)) s1)
     | Medium => set_actionStart true s1
     | Long => set_actionStop true s1
     end).
Proof.
  intros Hacc Hd.
  assert (E : sub32 (u32 (t + d)) (u32 t) = d) by (rewrite sub32_elapsed; lia).
  rewrite (part000_isr_press _ _ Hacc).
  rewrite part000_isr_release.
  2:{ cbn [lastISRTime set_pressTime set_lastISRTime]. rewrite E.
      unfold DEBOUNCE_TIME. lia. }
  cbn [pressTime set_pressTime set_lastISRTime Blink PressCounter]. rewrite E.
  reflexivity.
Qed.

Lemma part000_press_output t d t1 t2 s :
  Runs.quiet000 s -> Blink s = false ->
  DEBOUNCE_TIME <= sub32 (u32 t) (lastISRTime s) ->
  50 <= d < 2 ^ 32 ->
  let s2 := buttonISR (u32 (t + d)) false (buttonISR (u32 t) true s) in
  let out := snd (loop t1 t2 s2) in
  lastDuration s2 = d /\
  (d < 1500 ->
   out = [Print "SHORT PRESS: Duration "; PrintNum d; Print " ms. Counter = ";
          PrintlnNum (s16 (PressCounter s + 1))]) /\
  (1500 <= d < 4000 -> PressCounter s = 0 ->
   out = [Print "ERROR: Long press detected ("; PrintNum d;
          Println " ms), but no counts recorded."]) /\
  (1500 <= d < 4000 -> 0 < PressCounter s ->
   out = [Print "CONFIRMED: Duration "; PrintNum d; Print " ms. Blinking every ";
          PrintNum (PressCounter s); Println " seconds."]) /\
  (4000 <= d ->
   out = [Print "OFF: Duration "; PrintNum d; Println " ms. System Shutdown."]).
Proof.
  intros (Hsh & Hst & Hsp) Hb Hacc Hd s2 out.
  unfold out, s2. rewrite (part000_press_release t d s Hacc Hd). cbv zeta.
  rewrite Hb.
  destruct s as [pc pt li ld ash ast asp bl fb lf lp tm].
  cbn in Hsh, Hst, Hsp, Hb. subst ash ast asp bl.
  cbn [PressCounter].
  pose proof (part000_classify_spec d) as (CS & CM & CL).
  destruct (classify d) eqn:C.
  - assert (d < 1500) by (apply CS; reflexivity).
    split; [reflexivity|].
    unfold loop, loop_stop, loop_short, loop_flash, loop_start,
      whenc, ifc, andthen, modify, emit, emit_with, skip.
    cbn -[sub32 s16 u32 startTimer].
    destruct (200 <=? _); cbn -[s16];
      repeat split; intros; try lia; reflexivity.
  - assert (1500 <= d < 4000) by (apply CM; reflexivity).
    split; [reflexivity|].
    unfold loop, loop_stop, loop_short, loop_flash, loop_start,
      whenc, ifc, andthen, modify, emit, emit_with, skip.
    cbn -[sub32 s16 u32 startTimer].
    destruct (fb && _); cbn -[sub32 s16 u32 startTimer];
      destruct (Z.ltb_spec 0 pc); destruct (Z.eqb_spec pc 0);
      cbn -[sub32 s16 u32 startTimer];
      repeat split; intros; try lia; reflexivity.
  - assert (4000 <= d) by (apply CL; reflexivity).
    split; [reflexivity|].
    unfold loop, loop_stop, loop_short, loop_flash, loop_start,
      whenc, ifc, andthen, modify, emit, emit_with, skip.
    cbn -[sub32 s16 u32 startTimer].
    repeat split; intros; try lia; reflexivity.
Qed.
End Printed.

(** X24.  part_000 prints the duration it measured.  Take a state with no
    flag pending and [Blink] clear, a press that the debounce accepts and
    its release [d] ms later (50 ms or more, less than 2^32).  After the
    two interrupts [lastDuration] is [d], and the next pass of [loop] prints
    exactly one message carrying [d]: "SHORT PRESS" with the new counter for
    [d < 1500], "CONFIRMED" with the counter for [1500 <= d < 4000] and a
    positive counter, "ERROR" for the same range and a zero counter, and
    "OFF" for [d >= 4000]. *)
Theorem press_prints_its_duration
    (s : Part000.state) (t d t1 t2 : Z)
    (Hquiet : Runs.quiet000 s)
    (Hblink : Part000.Blink s = false)
    (Hacc : Part000.DEBOUNCE_TIME <= sub32 (u32 t) (Part000.lastISRTime s))
    (Hd : 50 <= d < 2 ^ 32) :
  let s2 := Part000.buttonISR (u32 (t + d)) false
              (Part000.buttonISR (u32 t) true s) in
  let out := snd (Part000.loop t1 t2 s2) in
  Part000.lastDuration s2 = d /\
  (d < 1500 ->
   out = [Print "SHORT PRESS: Duration "; PrintNum d; Print " ms. Counter = ";
          PrintlnNum (s16 (Part000.PressCounter s + 1))]) /\
  (1500 <= d < 4000 -> Part000.PressCounter s = 0 ->
   out = [Print "ERROR: Long press detected ("; PrintNum d;
          Println " ms), but no counts recorded."]) /\
  (1500 <= d < 4000 -> 0 < Part000.PressCounter s ->
   out = [Print "CONFIRMED: Duration "; PrintNum d; Print " ms. Blinking every ";
          PrintNum (Part000.PressCounter s); Println " seconds."]) /\
  (4000 <= d ->
   out = [Print "OFF: Duration "; PrintNum d; Println " ms. System Shutdown."]).
Proof. apply part000_press_output; assumption. Qed.

(** A press of 4321 ms on the freshly started system. *)
Lemma press_prints_its_duration_witness :
  snd (Part000.loop 0 0
         (Part000.buttonISR (u32 (1000 + 4321)) false
            (Part000.buttonISR (u32 1000) true Part000.init)))
  = [Print "OFF: Duration "; PrintNum 4321; Println " ms. System Shutdown."].
Proof.
  refine (proj2 (proj2 (proj2 (proj2
    (press_prints_its_duration Part000.init 1000 4321 0 0 _ eq_refl _ _)))) _).
  - repeat split.
  - vm_compute. discriminate.
  - lia.
  - lia.
Defined.

(** ** The blink period is positive *)

Section PeriodPositive.













End PeriodPositive.


